(** * django-polymodels: the polymorphic type field ([polymodels/fields.py])

    A shallow embedding of [PolymorphicManyToOneRel],
    [LazyPolymorphicTypeQueryset] and [PolymorphicTypeField].

    Python objects are mutable and shared by reference, so the instances
    live in a store ([World]) and the methods are computations in a state
    and exception monad over that store.  Calls that leave the module
    ([subclasses_lookup], the manager's [complex_filter],
    [lazy_related_operation]) are recorded in a trace. *)

From Stdlib Require Import ZArith String List Bool.
From stdpp Require Import gmap strings list fin_maps.

Local Open Scope Z_scope.
Local Open Scope string_scope.
Local Open Scope list_scope.

(** ** Python values *)

(** Values that occur on the right-hand side of a query lookup. *)
Inductive pyval :=
| VNone
| VBool (b : bool)
| VInt (z : Z)
| VStr (s : string)
| VSet (zs : list Z).

(** A [dict] with text keys: keyword lookups such as [{'pk__in': {1, 2}}].
    Python compares dicts without regard to insertion order, as [gmap]
    does. *)
Abbreviation lookups := (gmap string pyval).

(** [django.db.models.Q]: keyword lookups combined with [&], [|] and [~]. *)
Inductive Q :=
| QKw (kw : lookups)
| QAnd (l r : Q)
| QOr (l r : Q)
| QNot (q : Q).

(** What [limit_choices_to] may hold.  The getter tests for [None], [dict]
    and [Q]; [LOther] stands for any object of another type (Django also
    allows a callable there). *)
Inductive limit :=
| LNone
| LDict (d : lookups)
| LQ (q : Q)
| LOther (tag : string).

(** [dict(d, ** extra)]: a copy of [d] updated with [extra], so the keys of
    [extra] win. *)
Definition dict_update (d extra : lookups) : lookups := extra ∪ d.

(** ** Classes *)

Record Options := {
  object_name : string;
  pk : option string
}.

(** A class deriving from [BasePolymorphicModel]; [subclasses_lookup] is
    the classmethod of [polymodels/models.py], taken as given. *)
Record PolymorphicModel := {
  __name__ : string;
  _meta : Options;
  subclasses_lookup : string -> lookups
}.

(** A model class as [do_polymorphic_type] reads it, by [__name__] and
    [_meta] alone: a class deriving from [BasePolymorphicModel], or a model
    class outside that hierarchy, given by its name and its [_meta]. *)
Inductive model_class :=
| Polymorphic (c : PolymorphicModel)
| PlainModel (name : string) (meta : Options).
Coercion Polymorphic : PolymorphicModel >-> model_class.

Definition class_name (m : model_class) : string :=
  match m with
  | Polymorphic c => __name__ c
  | PlainModel name _ => name
  end.

Definition class_meta (m : model_class) : Options :=
  match m with
  | Polymorphic c => _meta c
  | PlainModel _ meta => meta
  end.

(** The objects passed as polymorphic type or as target of a relation: a
    text string (the name of a model not loaded yet), a class deriving
    from [BasePolymorphicModel], any other class (known by its name; the
    host tells whether it is a model and what its [_meta] is), or an object
    that is neither a string nor a class. *)
Inductive pyobj :=
| ObjStr (s : string)
| ObjPolymorphic (c : PolymorphicModel)
| ObjClass (name : string)
| ObjOther (v : pyval).

(** ** Exceptions, events and the store *)

(** The exceptions of Python that occur, and [DanglingReference] for a
    reference to an object the store does not hold, which no run that
    starts from objects of the store produces. *)
Inductive exn :=
| AssertionError (msg : string)
| ValueError (msg : string)
| AttributeError (msg : string)
| TypeError (msg : string)
| ImportError (msg : string)
| DanglingReference.

Inductive Res (A : Type) :=
| Ok (a : A)
| Raise (e : exn).
Arguments Ok {A} a.
Arguments Raise {A} e.

Abbreviation loc := nat.

(** The values of the keyword arguments of [formfield]. *)
Inductive formarg :=
| FNone
| FStr (s : string)
| FFormClass (cls : string)
| FQueryset (qs : loc)
| FOther (v : pyval).

(** What a lazy queryset is built for: a database alias ([None] or a
    string), or whatever other object the caller passed as [using]. *)
Inductive dbarg :=
| DbAlias (alias : option string)
| DbOther (v : formarg).
#[warnings="-uniform-inheritance"]
Coercion DbAlias : option >-> dbarg.

Inductive Event :=
| EvSubclassesLookup (cls : string) (query_name : string)
| EvComplexFilter (model : string) (db : dbarg) (f : limit)
| EvLazyRelatedOperation (field : loc) (related : pyobj).

(** The relation classes: the host's [ManyToOneRel] and its subclass
    defined here. *)
Inductive rel_class :=
| ManyToOneRel
| PolymorphicManyToOneRel.

(** A relation object.  [dict_limit_choices_to] is the entry
    ['limit_choices_to'] of the instance [__dict__]; [polymorphic_type] is
    [None] until the attribute has been assigned. *)
Record Rel := {
  rel_cls : rel_class;
  rel_model : pyobj;
  related_name : option string;
  field_name : option string;
  _limit_choices_to : limit;
  dict_limit_choices_to : option limit;
  polymorphic_type : option pyobj
}.

Definition set__limit_choices_to (v : limit) (r : Rel) : Rel :=
  {| rel_cls := rel_cls r;
     rel_model := rel_model r; related_name := related_name r;
     field_name := field_name r; _limit_choices_to := v;
     dict_limit_choices_to := dict_limit_choices_to r;
     polymorphic_type := polymorphic_type r |}.

Definition set_dict_limit_choices_to (v : option limit) (r : Rel) : Rel :=
  {| rel_cls := rel_cls r;
     rel_model := rel_model r; related_name := related_name r;
     field_name := field_name r; _limit_choices_to := _limit_choices_to r;
     dict_limit_choices_to := v;
     polymorphic_type := polymorphic_type r |}.

Definition set_polymorphic_type (v : pyobj) (r : Rel) : Rel :=
  {| rel_cls := rel_cls r;
     rel_model := rel_model r; related_name := related_name r;
     field_name := field_name r; _limit_choices_to := _limit_choices_to r;
     dict_limit_choices_to := dict_limit_choices_to r;
     polymorphic_type := Some v |}.

(** [Field.default]: the [NOT_PROVIDED] marker, a plain value, or the
    callable [partial(get_content_type, c)]. *)
Inductive default_value :=
| NOT_PROVIDED
| DefaultValue (v : pyval)
| DefaultContentTypeOf (c : model_class).

(** An instance of [PolymorphicTypeField].  [type] is [None] until
    [do_polymorphic_type] has assigned the attribute; [remote_field] is the
    reference to the relation object. *)
Record Field := {
  name : option string;
  null : bool;
  default : default_value;
  type : option string;
  error_messages : gmap string string;
  remote_field : loc
}.

(** The query built by [_default_manager.using(db).complex_filter(f)]. *)
Record QuerySet := {
  qs_model : string;
  qs_db : dbarg;
  qs_filter : limit
}.

(** An instance of [LazyPolymorphicTypeQueryset]: the [_wrapped] slot
    ([None] for the [empty] marker) and the two [__dict__] entries written
    by [__init__]. *)
Record LazyObject := {
  _wrapped : option QuerySet;
  lazy_remote_field : option loc;
  lazy_db : dbarg
}.

Record World := {
  rels : gmap loc Rel;
  fields : gmap loc Field;
  lazies : gmap loc LazyObject;
  trace : list Event
}.

Definition with_rels (f : gmap loc Rel -> gmap loc Rel) (w : World) : World :=
  {| rels := f (rels w); fields := fields w; lazies := lazies w;
     trace := trace w |}.

Definition with_fields (f : gmap loc Field -> gmap loc Field) (w : World) : World :=
  {| rels := rels w; fields := f (fields w); lazies := lazies w;
     trace := trace w |}.

Definition with_lazies (f : gmap loc LazyObject -> gmap loc LazyObject)
    (w : World) : World :=
  {| rels := rels w; fields := fields w; lazies := f (lazies w);
     trace := trace w |}.

Definition with_trace (f : list Event -> list Event) (w : World) : World :=
  {| rels := rels w; fields := fields w; lazies := lazies w;
     trace := f (trace w) |}.

(** ** The monad of methods: state passing with exceptions

    A raised exception keeps the store as it was when it was raised, as in
    Python, where the mutations made before a [raise] are not rolled
    back. *)
Definition M (A : Type) : Type := World -> Res A * World.

Definition ret {A} (a : A) : M A := fun w => (Ok a, w).
Definition raise {A} (e : exn) : M A := fun w => (Raise e, w).
Definition bind {A B} (m : M A) (k : A -> M B) : M B :=
  fun w => match m w with
           | (Ok a, w') => k a w'
           | (Raise e, w') => (Raise e, w')
           end.

Notation "'let*' x ':=' m 'in' k" := (bind m (fun x => k))
  (at level 10, x pattern, m at level 100, k at level 200).
Notation "m ';;' k" := (bind m (fun _ => k))
  (at level 100, k at level 200, right associativity).

Definition emit (e : Event) : M unit :=
  fun w => (Ok tt, with_trace (fun t => t ++ [e]) w).

Definition get_rel (l : loc) : M Rel :=
  fun w => match rels w !! l with
           | Some r => (Ok r, w)
           | None => (Raise DanglingReference, w)
           end.

Definition modify_rel (l : loc) (f : Rel -> Rel) : M unit :=
  fun w => match rels w !! l with
           | Some r => (Ok tt, with_rels (insert l (f r)) w)
           | None => (Raise DanglingReference, w)
           end.

Definition get_field (l : loc) : M Field :=
  fun w => match fields w !! l with
           | Some f => (Ok f, w)
           | None => (Raise DanglingReference, w)
           end.

Definition modify_field (l : loc) (f : Field -> Field) : M unit :=
  fun w => match fields w !! l with
           | Some x => (Ok tt, with_fields (insert l (f x)) w)
           | None => (Raise DanglingReference, w)
           end.

Definition get_lazy (l : loc) : M LazyObject :=
  fun w => match lazies w !! l with
           | Some x => (Ok x, w)
           | None => (Raise DanglingReference, w)
           end.

Definition modify_lazy (l : loc) (f : LazyObject -> LazyObject) : M unit :=
  fun w => match lazies w !! l with
           | Some x => (Ok tt, with_lazies (insert l (f x)) w)
           | None => (Raise DanglingReference, w)
           end.

(** ** Attribute access

    [object.__getattribute__]: a data descriptor found on the class (one
    that defines [__set__], which every [property] does) is called first;
    the instance [__dict__] comes second; a descriptor without [__set__]
    or a missing class attribute comes last. *)
Inductive class_attribute (V : Type) :=
| DataDescriptor (fget : M V)
| NonDataDescriptor (fget : M V)
| NoClassAttribute.
Arguments DataDescriptor {V} fget.
Arguments NonDataDescriptor {V} fget.
Arguments NoClassAttribute {V}.

Definition object_getattribute {V} (attr : string) (on_class : class_attribute V)
    (in_dict : option V) : M V :=
  match on_class with
  | DataDescriptor fget => fget
  | NonDataDescriptor fget =>
      match in_dict with
      | Some v => ret v
      | None => fget
      end
  | NoClassAttribute =>
      match in_dict with
      | Some v => ret v
      | None => raise (AttributeError attr)
      end
  end.

(** ** [PolymorphicManyToOneRel] *)

(** [self.polymorphic_type.subclasses_lookup(query_name)]: only a class
    deriving from [BasePolymorphicModel] has the classmethod. *)
Definition call_subclasses_lookup (pt : option pyobj) (query_name : string)
    : M lookups :=
  match pt with
  | None => raise (AttributeError "polymorphic_type")
  | Some (ObjPolymorphic c) =>
      emit (EvSubclassesLookup (__name__ c) query_name);;
      ret (subclasses_lookup c query_name)
  | Some _ => raise (AttributeError "subclasses_lookup")
  end.

(** The constructor [Q] applied to keyword arguments, and [q1 & q2]. *)
Definition Q_of_kwargs (kw : lookups) : Q := QKw kw.
Definition Q_and (q1 q2 : Q) : Q := QAnd q1 q2.

(** The [if]/[elif] chain of the getter: what the override becomes, given
    the lookup of the subclasses.  An override that is neither [None], a
    [dict] nor a [Q] meets no branch and is left as it is. *)
Definition merged_limit_choices_to (limit_choices_to : limit)
    (subclasses : lookups) : limit :=
  match limit_choices_to with
  | LNone => LDict subclasses
  | LDict d => LDict (dict_update d subclasses)
  | LQ q => LQ (Q_and q (Q_of_kwargs subclasses))
  | LOther t => LOther t
  end.

(** The body of the [limit_choices_to] property getter. *)
Definition limit_choices_to_fget (self : loc) : M limit :=
  let* r := get_rel self in
  let* subclasses := call_subclasses_lookup (polymorphic_type r) "pk" in
  let* r := get_rel self in
  let limit_choices_to :=
    merged_limit_choices_to (_limit_choices_to r) subclasses in
  modify_rel self (set_dict_limit_choices_to (Some limit_choices_to));;
  ret limit_choices_to.

(** The body of the [limit_choices_to] property setter; the result is
    [self.__dict__.pop('limit_choices_to', None)]. *)
Definition limit_choices_to_fset (self : loc) (value : limit) : M limit :=
  modify_rel self (set__limit_choices_to value);;
  let* r := get_rel self in
  modify_rel self (set_dict_limit_choices_to None);;
  ret (match dict_limit_choices_to r with
       | Some cached => cached
       | None => LNone
       end).

(** What the class of the relation defines under the name
    [limit_choices_to]: a [property] on [PolymorphicManyToOneRel], nothing
    on the host's [ManyToOneRel], where it is a plain instance attribute. *)
Definition class_limit_choices_to (self : loc) (cls : rel_class)
    : class_attribute limit :=
  match cls with
  | PolymorphicManyToOneRel => DataDescriptor (limit_choices_to_fget self)
  | ManyToOneRel => NoClassAttribute
  end.

(** The expression [rel.limit_choices_to]. *)
Definition read_limit_choices_to (self : loc) : M limit :=
  let* r := get_rel self in
  object_getattribute "limit_choices_to"
    (class_limit_choices_to self (rel_cls r))
    (dict_limit_choices_to r).

(** The statement [rel.limit_choices_to = value]: a [property] routes it to
    the setter, whose returned value the assignment drops; without one the
    value lands in the instance [__dict__]. *)
Definition assign_limit_choices_to (self : loc) (value : limit) : M unit :=
  let* r := get_rel self in
  match rel_cls r with
  | PolymorphicManyToOneRel => limit_choices_to_fset self value;; ret tt
  | ManyToOneRel => modify_rel self (set_dict_limit_choices_to (Some value))
  end.

(** ** The host framework

    What the module takes from Django and from [polymodels/compat.py] and
    [polymodels/models.py]. *)

Inductive kwarg :=
| KObj (o : pyobj)
| KBool (b : bool)
| KLimit (l : limit)
| KDefault (d : default_value)
| KRelClass (c : rel_class).

Abbreviation kwargs := (gmap string kwarg).
Abbreviation row := (gmap string pyval).

Record Host := {
  (** [hasattr(ForeignKey, 'rel_class')] *)
  ForeignKey_has_rel_class : bool;
  (** the first two components of [django.VERSION] *)
  django_VERSION : Z * Z;
  (** the error messages a field inherits from [ForeignKey] and [Field] *)
  ForeignKey_error_messages : gmap string string;
  (** the rows of a model's table, by database alias; [None] for a class
      without a default manager *)
  table : string -> option (option string -> list row);
  (** whether a row satisfies one keyword lookup *)
  lookup_holds : string -> pyval -> row -> bool;
  (** [compat.get_content_type] *)
  get_content_type : model_class -> row;
  (** [repr] of a text string *)
  repr : string -> string;
  (** the [_meta] of a class outside the hierarchy of
      [BasePolymorphicModel], by name; [None] for a class that is no model *)
  model_meta : string -> option Options;
  (** the registry of loaded models, as [lazy_related_operation] finds it
      when called for a declaring class and a reference: the class the
      reference stands for when the declaring class and that class are
      both built, [None] as long as one of them is not *)
  loaded_models : string -> pyobj -> option pyobj;
  (** [south.modelsinspector.introspector], when South is installed *)
  introspector : option (loc -> M (list kwarg * kwargs))
}.

Definition alloc_rel (r : Rel) : M loc :=
  fun w => let l := fresh (dom (rels w)) in
           (Ok l, with_rels (insert l r) w).

Definition alloc_field (f : Field) : M loc :=
  fun w => let l := fresh (dom (fields w)) in
           (Ok l, with_fields (insert l f) w).

Definition alloc_lazy (o : LazyObject) : M loc :=
  fun w => let l := fresh (dom (lazies w)) in
           (Ok l, with_lazies (insert l o) w).

Definition kw_string (k : option kwarg) : option string :=
  match k with
  | Some (KObj (ObjStr s)) => Some s
  | _ => None
  end.

Definition kw_limit (k : option kwarg) : limit :=
  match k with
  | Some (KLimit l) => l
  | _ => LNone
  end.

Definition kw_bool (k : option kwarg) : bool :=
  match k with
  | Some (KBool b) => b
  | _ => false
  end.

Definition kw_default (k : option kwarg) : default_value :=
  match k with
  | Some (KDefault d) => d
  | _ => NOT_PROVIDED
  end.

(** Modelled from the spec: the class of the relation object the host
    builds.  A host whose [ForeignKey] has the class attribute [rel_class]
    takes it from the class of the field and knows no such keyword; an
    older host takes it from the keyword [rel_class], [ManyToOneRel] by
    default. *)
Definition ForeignKey_rel_class (host : Host) (class_rel : rel_class)
    (kw : kwargs) : M rel_class :=
  if ForeignKey_has_rel_class host then
    match kw !! "rel_class" with
    | Some _ =>
        raise (TypeError "__init__() got an unexpected keyword argument 'rel_class'")
    | None => ret class_rel
    end
  else
    ret (match kw !! "rel_class" with
         | Some (KRelClass c) => c
         | _ => ManyToOneRel
         end).

(** The filter the host assigns to the new relation: [{}] when none was
    given. *)
Definition effective_override (kw : kwargs) : limit :=
  match kw_limit (kw !! "limit_choices_to") with
  | LNone => LDict ∅
  | l => l
  end.

(** Modelled from the spec: what the host's [ForeignKey.__init__] builds
    once [to] is bound: the relation object with the target,
    [related_name], [to_field] and [limit_choices_to] (by the assignment
    [rel.limit_choices_to = ...]), and the field with [null], [default] and
    the error messages of the class hierarchy. *)
Definition ForeignKey_build (host : Host) (class_rel : rel_class)
    (class_messages : gmap string string) (to : pyobj) (kw : kwargs) : M loc :=
  let* cls := ForeignKey_rel_class host class_rel kw in
  let* rel := alloc_rel {|
    rel_cls := cls;
    rel_model := to;
    related_name := kw_string (kw !! "related_name");
    field_name := kw_string (kw !! "to_field");
    _limit_choices_to := LNone;
    dict_limit_choices_to := None;
    polymorphic_type := None |} in
  assign_limit_choices_to rel (effective_override kw);;
  alloc_field {|
    name := None;
    null := kw_bool (kw !! "null");
    default := kw_default (kw !! "default");
    type := None;
    error_messages := class_messages ∪ ForeignKey_error_messages host;
    remote_field := rel |}.

(** Modelled from the spec: the host's [ForeignKey.__init__], which is not
    part of the module.  [to] is its first parameter, so a positional
    argument beside the keyword [to] is one value too many; the target is
    a model class or the name of one. *)
Definition ForeignKey_init (host : Host) (class_rel : rel_class)
    (class_messages : gmap string string)
    (args : list kwarg) (kw : kwargs) : M loc :=
  match args with
  | _ :: _ =>
      raise (TypeError "__init__() got multiple values for argument 'to'")
  | [] =>
      match kw !! "to" with
      | Some (KObj (ObjOther _)) =>
          raise (AssertionError "First parameter to ForeignKey must be either a model, a model name, or the string 'self'")
      | Some (KObj to) => ForeignKey_build host class_rel class_messages to kw
      | _ => raise (TypeError "__init__() missing 1 required positional argument: 'to'")
      end
  end.

(** Modelled from the spec: the accessors of [polymodels/compat.py], which
    return the relation object of a field and the target model of a
    relation object. *)
Definition get_remote_field (f : Field) : loc := remote_field f.
Definition get_remote_model (r : Rel) : pyobj := rel_model r.

(** Modelled from the spec: the host's [lazy_related_operation], "a
    registration function accepting (declaring class, referenced class
    name, callback) that invokes the callback once the referenced class is
    fully built, passing (declaring class, resolved class, extra keyword
    context)".  When the classes are built already, the callback runs
    before the function returns; otherwise the host keeps it and calls it
    later. *)
Definition lazy_related_operation (host : Host)
    (function : string -> pyobj -> loc -> M unit)
    (model : string) (related : pyobj) (field : loc) : M unit :=
  emit (EvLazyRelatedOperation field related);;
  match loaded_models host model related with
  | Some related_model => function model related_model field
  | None => ret tt
  end.

(** ** [PolymorphicTypeField] *)

Definition ContentType : pyobj := ObjClass "ContentType".

Definition default_error_messages : gmap string string :=
  {[ "invalid" := "Specified model is not a subclass of %(model)s." ]}.

Definition rel_class_attribute : rel_class := PolymorphicManyToOneRel.

Definition isinstance_string (o : pyobj) : bool :=
  match o with
  | ObjStr _ => true
  | _ => false
  end.

Definition isclass (o : pyobj) : bool :=
  match o with
  | ObjPolymorphic _ | ObjClass _ => true
  | _ => false
  end.

(** [issubclass(model, BasePolymorphicModel)], for a class. *)
Definition issubclass_BasePolymorphicModel (o : pyobj) : bool :=
  match o with
  | ObjPolymorphic _ => true
  | _ => false
  end.

Definition validate_message : string :=
  "First parameter to `PolymorphicTypeField` must be a subclass of `BasePolymorphicModel`".

Definition validate_polymorphic_type (model : pyobj) : M unit :=
  if negb (isclass model) || negb (issubclass_BasePolymorphicModel model)
  then raise (AssertionError validate_message)
  else ret tt.

(** The keyword arguments handed to [ForeignKey.__init__]. *)
Definition init_defaults (host : Host) (kw : kwargs) : kwargs :=
  let defaults : kwargs :=
    {[ "to" := KObj ContentType; "related_name" := KObj (ObjStr "+") ]} in
  let defaults :=
    if negb (ForeignKey_has_rel_class host)
    then <["rel_class" := KRelClass PolymorphicManyToOneRel]> defaults
    else defaults in
  kw ∪ defaults.

Definition PolymorphicTypeField_init (host : Host) (polymorphic_type : pyobj)
    (args : list kwarg) (kw : kwargs) : M loc :=
  (if negb (isinstance_string polymorphic_type)
   then validate_polymorphic_type polymorphic_type
   else ret tt);;
  let defaults := init_defaults host kw in
  let* self :=
    ForeignKey_init host rel_class_attribute default_error_messages
      args defaults in
  let* f := get_field self in
  modify_rel (get_remote_field f) (set_polymorphic_type polymorphic_type);;
  ret self.

Definition set_name (v : option string) (f : Field) : Field :=
  {| name := v; null := null f; default := default f; type := type f;
     error_messages := error_messages f; remote_field := remote_field f |}.

Definition set_default (v : default_value) (f : Field) : Field :=
  {| name := name f; null := null f; default := v; type := type f;
     error_messages := error_messages f; remote_field := remote_field f |}.

Definition set_type (v : option string) (f : Field) : Field :=
  {| name := name f; null := null f; default := default f; type := v;
     error_messages := error_messages f; remote_field := remote_field f |}.

Definition set_error_message (key msg : string) (f : Field) : Field :=
  {| name := name f; null := null f; default := default f; type := type f;
     error_messages := <[key := msg]> (error_messages f);
     remote_field := remote_field f |}.

Definition is_NOT_PROVIDED (d : default_value) : bool :=
  match d with
  | NOT_PROVIDED => true
  | _ => false
  end.

(** Calling a default that is callable: [partial(get_content_type, c)()]
    is [get_content_type(c)]. *)
Definition call_default (host : Host) (d : default_value) : option row :=
  match d with
  | DefaultContentTypeOf c => Some (get_content_type host c)
  | _ => None
  end.

Definition invalid_message (object_name : string) : string :=
  "Specified content type is not of a subclass of " +:+ object_name +:+ ".".

Definition do_polymorphic_type (self : loc) (polymorphic_type : model_class)
    : M unit :=
  let* f := get_field self in
  (if is_NOT_PROVIDED (default f) && negb (null f)
   then modify_field self (set_default (DefaultContentTypeOf polymorphic_type))
   else ret tt);;
  modify_field self (set_type (Some (class_name polymorphic_type)));;
  modify_field self
    (set_error_message "invalid"
       (invalid_message (object_name (class_meta polymorphic_type)))).

(** The callback defined inside [contribute_to_class].  The attributes
    [__name__] and [_meta] read by [do_polymorphic_type] exist on every
    class that passes the validation. *)
Definition resolve_polymorphic_type (model : string) (related_model : pyobj)
    (field : loc) : M unit :=
  validate_polymorphic_type related_model;;
  let* f := get_field field in
  modify_rel (get_remote_field f) (set_polymorphic_type related_model);;
  match related_model with
  | ObjPolymorphic c => do_polymorphic_type field c
  | _ => raise (AttributeError "__name__")
  end.

(** [contribute_to_class]: the host's method gives the field its name, the
    rest is the body of the module.  The test reads [_meta.pk] of whatever
    class is stored as polymorphic type, without validating it; an object
    that is no model has no [_meta]. *)
Definition contribute_to_class (host : Host) (self : loc) (cls : string)
    (name : string) : M unit :=
  modify_field self (set_name (Some name));;
  let* f := get_field self in
  let* r := get_rel (get_remote_field f) in
  let defer polymorphic_type :=
    lazy_related_operation host resolve_polymorphic_type cls polymorphic_type
      self in
  match polymorphic_type r with
  | None => raise (AttributeError "polymorphic_type")
  | Some (ObjStr s) => defer (ObjStr s)
  | Some (ObjPolymorphic c) =>
      match pk (_meta c) with
      | None => defer (ObjPolymorphic c)
      | Some _ => do_polymorphic_type self c
      end
  | Some (ObjClass n) =>
      match model_meta host n with
      | None => raise (AttributeError "_meta")
      | Some meta =>
          match pk meta with
          | None => defer (ObjClass n)
          | Some _ => do_polymorphic_type self (PlainModel n meta)
          end
      end
  | Some (ObjOther _) => raise (AttributeError "_meta")
  end.

(** ** [LazyPolymorphicTypeQueryset] *)

Definition set_wrapped (v : option QuerySet) (o : LazyObject) : LazyObject :=
  {| _wrapped := v; lazy_remote_field := lazy_remote_field o;
     lazy_db := lazy_db o |}.

(** Modelled from the spec: [LazyObject.__init__] of [polymodels/compat.py]
    (Django's lazy proxy), which leaves the wrapper empty. *)
Definition LazyObject_init : M loc :=
  alloc_lazy {| _wrapped := None; lazy_remote_field := None; lazy_db := None |}.

Definition LazyPolymorphicTypeQueryset_init (remote_field : loc)
    (db : dbarg) : M loc :=
  let* self := LazyObject_init in
  modify_lazy self (fun o =>
    {| _wrapped := _wrapped o; lazy_remote_field := Some remote_field;
       lazy_db := db |});;
  ret self.

(** Modelled from the spec: [model._default_manager.using(db)] of the host;
    only a model class has a default manager. *)
Definition default_manager_using (host : Host) (model : pyobj)
    (db : dbarg) : M string :=
  let no_manager := raise (AttributeError "_default_manager") in
  let manager n :=
    match table host n with
    | Some _ => ret n
    | None => no_manager
    end in
  match model with
  | ObjClass n => manager n
  | ObjPolymorphic c => manager (__name__ c)
  | _ => no_manager
  end.

(** Modelled from the spec: the host's [complex_filter], which accepts a
    [Q] object or a dict of keyword lookups and builds the filtered query. *)
Definition complex_filter (model : string) (db : dbarg) (f : limit)
    : M QuerySet :=
  match f with
  | LDict _ | LQ _ =>
      emit (EvComplexFilter model db f);;
      ret {| qs_model := model; qs_db := db; qs_filter := f |}
  | _ => raise (TypeError "complex_filter() argument must be a mapping or a Q object")
  end.

Definition _setup (host : Host) (self : loc) : M unit :=
  let* o := get_lazy self in
  let remote_field := lazy_remote_field o in
  let db := lazy_db o in
  match remote_field with
  | None => raise (AttributeError "model")
  | Some remote_field =>
      let* r := get_rel remote_field in
      let* manager := default_manager_using host (get_remote_model r) db in
      let* limit_choices_to := read_limit_choices_to remote_field in
      let* wrapped := complex_filter manager db limit_choices_to in
      modify_lazy self (set_wrapped (Some wrapped))
  end.

(** Modelled from the spec: attribute access on a [LazyObject], which is
    absent from the sources: "materializes its backing query exactly once,
    on first attribute access of any kind" and "thereafter delegates every
    operation transparently to that resolved, filtered collection".  The
    result is the collection the attribute is looked up on. *)
Definition LazyObject_getattr (host : Host) (self : loc) (attr : string)
    : M QuerySet :=
  let* o := get_lazy self in
  (match _wrapped o with
   | None => _setup host self
   | Some _ => ret tt
   end);;
  let* o := get_lazy self in
  match _wrapped o with
  | Some wrapped => ret wrapped
  | None => raise (AttributeError attr)
  end.

(** *** The rows of a query

    Modelled from the spec: a query holds the rows of the table of its
    model, in its database, that pass its filter; a dict of lookups asks
    for each of them, [Q] objects combine as the connectives do.  The
    host has no database under an object that is no alias, and no rows
    for it. *)

Definition lookups_hold (host : Host) (d : lookups) (r : row) : bool :=
  forallb (fun kv => lookup_holds host kv.1 kv.2 r) (map_to_list d).

Fixpoint Q_holds (host : Host) (q : Q) (r : row) : bool :=
  match q with
  | QKw kw => lookups_hold host kw r
  | QAnd a b => Q_holds host a r && Q_holds host b r
  | QOr a b => Q_holds host a r || Q_holds host b r
  | QNot a => negb (Q_holds host a r)
  end.

Definition limit_holds (host : Host) (l : limit) (r : row) : bool :=
  match l with
  | LDict d => lookups_hold host d r
  | LQ q => Q_holds host q r
  | _ => false
  end.

Definition qs_rows (host : Host) (qs : QuerySet) : list row :=
  match table host (qs_model qs), qs_db qs with
  | Some rows, DbAlias alias =>
      List.filter (limit_holds host (qs_filter qs)) (rows alias)
  | _, _ => []
  end.

(** ** [PolymorphicTypeField.formfield] *)

Abbreviation formkwargs := (gmap string formarg).

Definition formarg_of_option (o : option string) : formarg :=
  match o with
  | Some s => FStr s
  | None => FNone
  end.

(** [kwargs.pop('using', None)]: whatever the caller passed under
    [using], [None] when the keyword is absent. *)
Definition pop_using (kw : formkwargs) : dbarg * formkwargs :=
  (match kw !! "using" with
   | None | Some FNone => DbAlias None
   | Some (FStr alias) => DbAlias (Some alias)
   | Some v => DbOther v
   end,
   delete "using" kw).

Definition repr_name (host : Host) (name : option string) : string :=
  match name with
  | Some s => repr host s
  | None => "None"
  end.

Definition formfield_message (host : Host) (name : option string)
    (remote_model : string) : string :=
  "Cannot create form field for " +:+ repr_name host name +:+
  " yet, because its related model " +:+ repr host remote_model +:+
  " has not been loaded yet".

(** Modelled from the spec: the host's [Field.formfield], reached by
    [super(RelatedField, self)]; the form field it returns is described by
    the keyword arguments it was built from. *)
Definition Field_formfield (kw : formkwargs) : M formkwargs := ret kw.

Definition formfield (host : Host) (self : loc) (kw : formkwargs)
    : M formkwargs :=
  let '(db, kw) := pop_using kw in
  let* f := get_field self in
  let* r := get_rel (get_remote_field f) in
  match get_remote_model r with
  | ObjStr remote_model =>
      raise (ValueError (formfield_message host (name f) remote_model))
  | _ =>
      let* queryset := LazyPolymorphicTypeQueryset_init (get_remote_field f) db in
      let* r := get_rel (get_remote_field f) in
      let defaults : formkwargs :=
        {[ "form_class" := FFormClass "ModelChoiceField";
           "queryset" := FQueryset queryset;
           "to_field_name" := formarg_of_option (field_name r) ]} in
      Field_formfield (kw ∪ defaults)
  end.

(** ** Introspection: [south_field_triple] and [deconstruct] *)









(** ** The objects a construction leaves in the store *)

(** The relation object after the host's constructor: the assignment of
    the filter went through the setter of [PolymorphicManyToOneRel], or
    into the instance [__dict__] of a plain [ManyToOneRel]. *)
Definition built_rel (cls : rel_class) (to : pyobj) (kw : kwargs) : Rel := {|
  rel_cls := cls;
  rel_model := to;
  related_name := kw_string (kw !! "related_name");
  field_name := kw_string (kw !! "to_field");
  _limit_choices_to :=
    match cls with
    | PolymorphicManyToOneRel => effective_override kw
    | ManyToOneRel => LNone
    end;
  dict_limit_choices_to :=
    match cls with
    | PolymorphicManyToOneRel => None
    | ManyToOneRel => Some (effective_override kw)
    end;
  polymorphic_type := None |}.

Definition built_field (host : Host) (messages : gmap string string)
    (kw : kwargs) (rel : loc) : Field := {|
  name := None;
  null := kw_bool (kw !! "null");
  default := kw_default (kw !! "default");
  type := None;
  error_messages := messages ∪ ForeignKey_error_messages host;
  remote_field := rel |}.

(** The field after [do_polymorphic_type]. *)
Definition resolved_field (c : model_class) (f : Field) : Field :=
  set_error_message "invalid" (invalid_message (object_name (class_meta c)))
    (set_type (Some (class_name c))
       (if is_NOT_PROVIDED (default f) && negb (null f)
        then set_default (DefaultContentTypeOf c) f else f)).

(** ** Sample data *)

Definition Animal : PolymorphicModel := {|
  __name__ := "Animal";
  _meta := {| object_name := "Animal"; pk := Some "id" |};
  subclasses_lookup := fun query_name =>
    {[ query_name +:+ "__in" := VSet [1; 2; 3] ]}
|}.

Definition sample_rel (override : limit) (cached : option limit) : Rel := {|
  rel_cls := PolymorphicManyToOneRel;
  rel_model := ObjClass "ContentType";
  related_name := Some "+";
  field_name := Some "id";
  _limit_choices_to := override;
  dict_limit_choices_to := cached;
  polymorphic_type := Some (ObjPolymorphic Animal)
|}.

Definition sample_world (r : Rel) : World := {|
  rels := {[ 0%nat := r ]};
  fields := ∅;
  lazies := ∅;
  trace := []
|}.

Definition empty_world : World :=
  {| rels := ∅; fields := ∅; lazies := ∅; trace := [] |}.

Definition sample_rows : list row :=
  [ {[ "pk" := VInt 1 ]}; {[ "pk" := VInt 2 ]}; {[ "pk" := VInt 7 ]} ].

(** Exact match on a column, and membership for a lookup named
    [pk__in]. *)
Definition sample_lookup_holds (k : string) (v : pyval) (r : row) : bool :=
  match v with
  | VSet zs =>
      if String.eqb k "pk__in" then
        match r !! "pk" with
        | Some (VInt z) => existsb (Z.eqb z) zs
        | _ => false
        end
      else false
  | VInt z =>
      match r !! k with
      | Some (VInt z') => Z.eqb z z'
      | _ => false
      end
  | _ => false
  end.

(** A host of the 1.9 line, with South installed, on which [ContentType]
    and [Site] are models and no model is loaded yet. *)
Definition sample_host : Host := {|
  ForeignKey_has_rel_class := true;
  django_VERSION := (1, 9);
  ForeignKey_error_messages := {[ "null" := "This field cannot be null." ]};
  table := fun n =>
    if String.eqb n "ContentType" then Some (fun _ => sample_rows) else None;
  lookup_holds := sample_lookup_holds;
  get_content_type := fun c =>
    {[ "pk" := VInt 1; "model" := VStr (class_name c) ]};
  repr := fun s => "'" +:+ s +:+ "'";
  model_meta := fun n =>
    if String.eqb n "ContentType" || String.eqb n "Site"
    then Some {| object_name := n; pk := Some "id" |} else None;
  loaded_models := fun _ _ => None;
  introspector := Some (fun self =>
    let* f := get_field self in
    let* r := get_rel (remote_field f) in
    ret ([], {[ "to" := KObj (rel_model r) ]}))
|}.

(** The same host once the models of the application are loaded: the name
    ["zoo.Animal"] stands for the class [Animal]. *)
Definition loaded_host : Host := {|
  ForeignKey_has_rel_class := ForeignKey_has_rel_class sample_host;
  django_VERSION := django_VERSION sample_host;
  ForeignKey_error_messages := ForeignKey_error_messages sample_host;
  table := table sample_host;
  lookup_holds := lookup_holds sample_host;
  get_content_type := get_content_type sample_host;
  repr := repr sample_host;
  model_meta := model_meta sample_host;
  loaded_models := fun _ related =>
    match related with
    | ObjStr s =>
        if String.eqb s "zoo.Animal" then Some (ObjPolymorphic Animal) else None
    | _ => None
    end;
  introspector := introspector sample_host
|}.

(** Another polymorphic class. *)
Definition Cat : PolymorphicModel := {|
  __name__ := "Cat";
  _meta := {| object_name := "Cat"; pk := Some "id" |};
  subclasses_lookup := fun query_name => {[ query_name := VInt 5 ]}
|}.

Definition sample_field (d : default_value) (nullable : bool) : Field := {|
  name := Some "content_type";
  null := nullable;
  default := d;
  type := None;
  error_messages :=
    default_error_messages ∪ {[ "null" := "This field cannot be null." ]};
  remote_field := 0%nat
|}.

(** A field attached to a model, with its relation object. *)
Definition sample_field_world (f : Field) (r : Rel) : World := {|
  rels := {[ 0%nat := r ]};
  fields := {[ 0%nat := f ]};
  lazies := ∅;
  trace := []
|}.

(** ** Properties of the store and of the monad *)

Lemma bind_Ok {A B} (m : M A) (k : A -> M B) w a w' :
  m w = (Ok a, w') -> bind m k w = k a w'.
Proof. intros H. unfold bind. now rewrite H. Qed.

Lemma bind_Raise {A B} (m : M A) (k : A -> M B) w e w' :
  m w = (Raise e, w') -> bind m k w = (Raise e, w').
Proof. intros H. unfold bind. now rewrite H. Qed.

(** Run the first computation of a sequence, given what it returns. *)
Tactic Notation "step" uconstr(H) := rewrite (bind_Ok _ _ _ _ _ H).
Tactic Notation "step_raise" uconstr(H) := rewrite (bind_Raise _ _ _ _ _ H).

Lemma get_rel_Some w l r :
  rels w !! l = Some r -> get_rel l w = (Ok r, w).
Proof. intros H. unfold get_rel. now rewrite H. Qed.

Lemma modify_rel_Some w l r f :
  rels w !! l = Some r ->
  modify_rel l f w = (Ok tt, with_rels (insert l (f r)) w).
Proof. intros H. unfold modify_rel. now rewrite H. Qed.

Lemma get_field_Some w l f :
  fields w !! l = Some f -> get_field l w = (Ok f, w).
Proof. intros H. unfold get_field. now rewrite H. Qed.

Lemma modify_field_Some w l x f :
  fields w !! l = Some x ->
  modify_field l f w = (Ok tt, with_fields (insert l (f x)) w).
Proof. intros H. unfold modify_field. now rewrite H. Qed.

Lemma get_lazy_Some w l o :
  lazies w !! l = Some o -> get_lazy l w = (Ok o, w).
Proof. intros H. unfold get_lazy. now rewrite H. Qed.

Lemma modify_lazy_Some w l o f :
  lazies w !! l = Some o ->
  modify_lazy l f w = (Ok tt, with_lazies (insert l (f o)) w).
Proof. intros H. unfold modify_lazy. now rewrite H. Qed.

(** The getter on a relation whose polymorphic type is a class: one call
    of [subclasses_lookup], the merged filter written to the instance
    [__dict__] and returned. *)
Lemma limit_choices_to_fget_run w self r c :
  rels w !! self = Some r ->
  polymorphic_type r = Some (ObjPolymorphic c) ->
  let v := merged_limit_choices_to (_limit_choices_to r)
             (subclasses_lookup c "pk") in
  limit_choices_to_fget self w =
    (Ok v,
     with_rels (insert self (set_dict_limit_choices_to (Some v) r))
       (with_trace (fun t => t ++ [EvSubclassesLookup (__name__ c) "pk"]) w)).
Proof.
  intros Hr Hpt v. unfold limit_choices_to_fget.
  step (get_rel_Some _ _ _ Hr).
  rewrite Hpt. unfold call_subclasses_lookup, emit, bind at 1 2. simpl.
  unfold bind at 1. unfold get_rel at 1. simpl. rewrite Hr.
  unfold bind, modify_rel, ret. simpl. rewrite Hr. reflexivity.
Qed.

(** The getter fails when the polymorphic type is not a class yet. *)
Lemma limit_choices_to_fget_unresolved w self r s :
  rels w !! self = Some r ->
  polymorphic_type r = Some (ObjStr s) ->
  limit_choices_to_fget self w = (Raise (AttributeError "subclasses_lookup"), w).
Proof.
  intros Hr Hpt. unfold limit_choices_to_fget.
  step (get_rel_Some _ _ _ Hr).
  rewrite Hpt. reflexivity.
Qed.

(** Reading the attribute of a [PolymorphicManyToOneRel] always runs the
    getter, whatever the instance [__dict__] holds. *)
Lemma read_limit_choices_to_is_fget w self r :
  rels w !! self = Some r ->
  rel_cls r = PolymorphicManyToOneRel ->
  read_limit_choices_to self w = limit_choices_to_fget self w.
Proof.
  intros Hr Hc. unfold read_limit_choices_to.
  step (get_rel_Some _ _ _ Hr).
  rewrite Hc. reflexivity.
Qed.

Lemma limit_choices_to_fset_run w self r value :
  rels w !! self = Some r ->
  limit_choices_to_fset self value w =
    (Ok (match dict_limit_choices_to r with
         | Some cached => cached
         | None => LNone
         end),
     with_rels
       (insert self (set_dict_limit_choices_to None (set__limit_choices_to value r)))
       w).
Proof.
  intros Hr. unfold limit_choices_to_fset.
  step (modify_rel_Some _ _ _ _ Hr).
  unfold bind, get_rel, modify_rel, ret. simpl.
  rewrite !lookup_insert_eq. simpl. rewrite lookup_insert_eq.
  unfold with_rels. simpl. rewrite insert_insert_eq. reflexivity.
Qed.

Lemma assign_limit_choices_to_run w self r value :
  rels w !! self = Some r ->
  assign_limit_choices_to self value w =
    (Ok tt,
     with_rels
       (insert self
          match rel_cls r with
          | PolymorphicManyToOneRel =>
              set_dict_limit_choices_to None (set__limit_choices_to value r)
          | ManyToOneRel => set_dict_limit_choices_to (Some value) r
          end) w).
Proof.
  intros Hr. unfold assign_limit_choices_to.
  step (get_rel_Some _ _ _ Hr).
  destruct (rel_cls r).
  - now apply modify_rel_Some.
  - now step (limit_choices_to_fset_run _ _ _ value Hr).
Qed.

Lemma ForeignKey_build_run host class_rel messages (kw : kwargs) w to cls :
  ForeignKey_rel_class host class_rel kw w = (Ok cls, w) ->
  let lr := fresh (dom (rels w)) in
  let lf := fresh (dom (fields w)) in
  ForeignKey_build host class_rel messages to kw w =
    (Ok lf,
     with_fields (insert lf (built_field host messages kw lr))
       (with_rels (insert lr (built_rel cls to kw)) w)).
Proof.
  intros Hcls lr lf. unfold ForeignKey_build.
  step Hcls.
  unfold alloc_rel, bind at 1. fold lr.
  match goal with
  | |- context [with_rels (insert lr ?r0) w] =>
      set (w1 := with_rels (insert lr r0) w);
      assert (Hr : rels w1 !! lr = Some r0) by apply lookup_insert_eq
  end.
  step (assign_limit_choices_to_run _ _ _ _ Hr).
  unfold alloc_field, with_fields, with_rels, built_field, built_rel. simpl.
  rewrite insert_insert_eq. fold lf. destruct cls; reflexivity.
Qed.

Lemma ForeignKey_init_run host class_rel messages (kw : kwargs) w to cls :
  kw !! "to" = Some (KObj to) ->
  (forall v, to <> ObjOther v) ->
  ForeignKey_rel_class host class_rel kw w = (Ok cls, w) ->
  let lr := fresh (dom (rels w)) in
  let lf := fresh (dom (fields w)) in
  ForeignKey_init host class_rel messages [] kw w =
    (Ok lf,
     with_fields (insert lf (built_field host messages kw lr))
       (with_rels (insert lr (built_rel cls to kw)) w)).
Proof.
  intros Hto Hobj Hcls lr lf. unfold ForeignKey_init. rewrite Hto.
  destruct to; try (exfalso; eapply Hobj; reflexivity);
    now apply ForeignKey_build_run.
Qed.

Lemma init_defaults_to host (kw : kwargs) :
  init_defaults host kw !! "to" =
    match kw !! "to" with
    | Some v => Some v
    | None => Some (KObj ContentType)
    end.
Proof.
  unfold init_defaults. rewrite lookup_union.
  destruct (kw !! "to"), (ForeignKey_has_rel_class host); reflexivity.
Qed.

Lemma init_defaults_related_name host (kw : kwargs) :
  init_defaults host kw !! "related_name" =
    match kw !! "related_name" with
    | Some v => Some v
    | None => Some (KObj (ObjStr "+"))
    end.
Proof.
  unfold init_defaults. rewrite lookup_union.
  destruct (kw !! "related_name"), (ForeignKey_has_rel_class host); reflexivity.
Qed.

Lemma init_defaults_rel_class host (kw : kwargs) :
  init_defaults host kw !! "rel_class" =
    match kw !! "rel_class" with
    | Some v => Some v
    | None => if ForeignKey_has_rel_class host then None
              else Some (KRelClass PolymorphicManyToOneRel)
    end.
Proof.
  unfold init_defaults. rewrite lookup_union.
  destruct (kw !! "rel_class"), (ForeignKey_has_rel_class host); reflexivity.
Qed.

Lemma init_defaults_other host (kw : kwargs) (k : string) :
  k ≠ "to" -> k ≠ "related_name" -> k ≠ "rel_class" ->
  init_defaults host kw !! k = kw !! k.
Proof.
  intros H1 H2 H3. unfold init_defaults. rewrite lookup_union.
  assert (Hd : forall d : kwargs,
    d = {[ "to" := KObj ContentType; "related_name" := KObj (ObjStr "+") ]} ->
    (if negb (ForeignKey_has_rel_class host)
     then <["rel_class" := KRelClass PolymorphicManyToOneRel]> d else d) !! k = None).
  { intros d ->. destruct (ForeignKey_has_rel_class host); simpl.
    - rewrite lookup_insert_ne by congruence. now rewrite lookup_singleton_ne by congruence.
    - rewrite !lookup_insert_ne by congruence. now rewrite lookup_singleton_ne by congruence. }
  rewrite (Hd _ eq_refl). destruct (kw !! k); reflexivity.
Qed.

(** With no [rel_class] among the caller's keywords, the relation object
    is a [PolymorphicManyToOneRel] on either kind of host. *)
Lemma init_rel_class host (kw : kwargs) w :
  kw !! "rel_class" = None ->
  ForeignKey_rel_class host rel_class_attribute (init_defaults host kw) w =
    (Ok PolymorphicManyToOneRel, w).
Proof.
  intros Hrc. unfold ForeignKey_rel_class.
  rewrite init_defaults_rel_class, Hrc.
  destruct (ForeignKey_has_rel_class host); reflexivity.
Qed.

Lemma validate_polymorphic_type_accepts c w :
  validate_polymorphic_type (ObjPolymorphic c) w = (Ok tt, w).
Proof. reflexivity. Qed.

Lemma validate_polymorphic_type_rejects o w :
  issubclass_BasePolymorphicModel o = false ->
  validate_polymorphic_type o w = (Raise (AssertionError validate_message), w).
Proof.
  intros H. unfold validate_polymorphic_type.
  destruct o; try discriminate; reflexivity.
Qed.

(** The constructor on a string or on a polymorphic class, with [to] left
    to the default or given as a class or a name, and no [rel_class]. *)
Lemma PolymorphicTypeField_init_run host pt (kw : kwargs) w to :
  isinstance_string pt || issubclass_BasePolymorphicModel pt = true ->
  kw !! "rel_class" = None ->
  init_defaults host kw !! "to" = Some (KObj to) ->
  (forall v, to <> ObjOther v) ->
  let kw' := init_defaults host kw in
  let lr := fresh (dom (rels w)) in
  let lf := fresh (dom (fields w)) in
  PolymorphicTypeField_init host pt [] kw w =
    (Ok lf,
     with_fields (insert lf (built_field host default_error_messages kw' lr))
       (with_rels
          (insert lr
             (set_polymorphic_type pt (built_rel PolymorphicManyToOneRel to kw')))
          w)).
Proof.
  intros Hpt Hrc Hto Hobj kw' lr lf.
  unfold PolymorphicTypeField_init.
  assert (Hval : (if negb (isinstance_string pt)
                  then validate_polymorphic_type pt else ret tt) w = (Ok tt, w)).
  { destruct pt; simpl in *; try discriminate; reflexivity. }
  step Hval.
  fold kw'.
  rewrite (bind_Ok _ _ _ _ _
             (ForeignKey_init_run host _ _ kw' w to _ Hto Hobj
                (init_rel_class host kw w Hrc))).
  fold lr lf.
  unfold bind, get_field, modify_rel, get_remote_field, ret. simpl.
  rewrite !lookup_insert_eq. simpl. rewrite lookup_insert_eq.
  unfold with_fields, with_rels. simpl. rewrite insert_insert_eq.
  reflexivity.
Qed.

Lemma dict_update_lookup (d extra : lookups) (k : string) :
  dict_update d extra !! k =
    match extra !! k with
    | Some v => Some v
    | None => d !! k
    end.
Proof.
  unfold dict_update. rewrite lookup_union.
  destruct (extra !! k), (d !! k); reflexivity.
Qed.

(** ** The effective filter of the relation *)

(** C1.  Reading [limit_choices_to] on a relation whose polymorphic type is
    a class merges the override with the lookup of the subclasses, whatever
    the instance [__dict__] holds: without an override the result is that
    lookup itself; a dict override is updated with it, key by key, the
    keys of the subclasses winning; a [Q] override is combined by [&] with
    the [Q] built from it, a query a row satisfies exactly when it
    satisfies both. *)
Theorem limit_choices_to_merges_override (w : World) (self : loc) (r : Rel)
    (c : PolymorphicModel) :
  rels w !! self = Some r ->
  rel_cls r = PolymorphicManyToOneRel ->
  polymorphic_type r = Some (ObjPolymorphic c) ->
  let subclasses := subclasses_lookup c "pk" in
  let result := (read_limit_choices_to self w).1 in
  (_limit_choices_to r = LNone -> result = Ok (LDict subclasses)) /\
  (forall d, _limit_choices_to r = LDict d ->
     exists merged,
       result = Ok (LDict merged) /\
       forall k, merged !! k =
                 match subclasses !! k with
                 | Some v => Some v
                 | None => d !! k
                 end) /\
  (forall q, _limit_choices_to r = LQ q ->
     result = Ok (LQ (QAnd q (QKw subclasses))) /\
     forall host row,
       limit_holds host (LQ (QAnd q (QKw subclasses))) row =
       Q_holds host q row && lookups_hold host subclasses row).
Proof.
  intros Hr Hcls Hpt subclasses result. subst result.
  rewrite (read_limit_choices_to_is_fget _ _ _ Hr Hcls).
  rewrite (limit_choices_to_fget_run _ _ _ _ Hr Hpt). simpl.
  split; [| split].
  - intros ->. reflexivity.
  - intros d ->. exists (dict_update d subclasses). split; [reflexivity |].
    intros k. apply dict_update_lookup.
  - intros q ->. split; [reflexivity |]. intros host row. reflexivity.
Qed.

Lemma limit_choices_to_merges_override_witness :
  rels (sample_world (sample_rel (LDict {[ "x" := VInt 1 ]}) None)) !! 0%nat
    = Some (sample_rel (LDict {[ "x" := VInt 1 ]}) None) /\
  exists merged,
    (read_limit_choices_to 0%nat
       (sample_world (sample_rel (LDict {[ "x" := VInt 1 ]}) None))).1
      = Ok (LDict merged) /\
    merged !! "x" = Some (VInt 1) /\
    merged !! "pk__in" = Some (VSet [1; 2; 3]).
Proof.
  split; [reflexivity |].
  destruct (limit_choices_to_merges_override
              (sample_world (sample_rel (LDict {[ "x" := VInt 1 ]}) None))
              0%nat (sample_rel (LDict {[ "x" := VInt 1 ]}) None) Animal
              eq_refl eq_refl eq_refl) as (_ & Hd & _).
  destruct (Hd _ eq_refl) as (merged & Hres & Hk).
  exists merged. split; [exact Hres |].
  split; rewrite Hk; reflexivity.
Defined.

(** X2.  An override of another type (a callable, say) meets no branch of
    the getter: it is returned as it is, and the lookup of the subclasses
    is dropped. *)
Lemma limit_choices_to_other_override (w : World) (self : loc) (r : Rel)
    (c : PolymorphicModel) (t : string) :
  rels w !! self = Some r ->
  rel_cls r = PolymorphicManyToOneRel ->
  polymorphic_type r = Some (ObjPolymorphic c) ->
  _limit_choices_to r = LOther t ->
  (read_limit_choices_to self w).1 = Ok (LOther t).
Proof.
  intros Hr Hcls Hpt Ho.
  rewrite (read_limit_choices_to_is_fget _ _ _ Hr Hcls).
  rewrite (limit_choices_to_fget_run _ _ _ _ Hr Hpt). simpl.
  now rewrite Ho.
Qed.

(** ** The cache slot *)

(** A read stores its result in the instance [__dict__], and all the same
    the next read calls [subclasses_lookup] again and returns what it
    computes, not what is stored: with a stale entry in the slot, the read
    returns the merged filter and overwrites the entry. *)
Lemma read_ignores_cache (w : World) (self : loc) (r : Rel)
    (c : PolymorphicModel) (cached : limit) :
  rels w !! self = Some r ->
  rel_cls r = PolymorphicManyToOneRel ->
  polymorphic_type r = Some (ObjPolymorphic c) ->
  dict_limit_choices_to r = Some cached ->
  let v := merged_limit_choices_to (_limit_choices_to r)
             (subclasses_lookup c "pk") in
  (read_limit_choices_to self w).1 = Ok v /\
  trace (read_limit_choices_to self w).2 =
    trace w ++ [EvSubclassesLookup (__name__ c) "pk"] /\
  (dict_limit_choices_to <$> rels (read_limit_choices_to self w).2 !! self)
    = Some (Some v).
Proof.
  intros Hr Hcls Hpt _ v.
  rewrite (read_limit_choices_to_is_fget _ _ _ Hr Hcls).
  rewrite (limit_choices_to_fget_run _ _ _ _ Hr Hpt). simpl.
  split; [reflexivity |]. split; [reflexivity |].
  now rewrite lookup_insert_eq.
Qed.

(** C3.  Two reads in a row on a relation with no override: each of them
    calls [subclasses_lookup], although the first one has filled the cache
    slot. *)
Theorem second_read_calls_subclasses_lookup_again :
  let w0 := sample_world (sample_rel LNone None) in
  let w1 := (read_limit_choices_to 0%nat w0).2 in
  let w2 := (read_limit_choices_to 0%nat w1).2 in
  (dict_limit_choices_to <$> rels w1 !! 0%nat)
    = Some (Some (LDict {[ "pk__in" := VSet [1; 2; 3] ]})) /\
  trace w1 = [EvSubclassesLookup "Animal" "pk"] /\
  trace w2 = [EvSubclassesLookup "Animal" "pk"; EvSubclassesLookup "Animal" "pk"].
Proof.
  vm_compute. repeat split; reflexivity.
Qed.

(** C4.  The setter stores the value as the override, removes the cache
    entry and returns the removed entry ([None] when there was none); the
    next read of a relation whose polymorphic type is a class merges the
    new override. *)
Theorem setter_stores_override_and_evicts_cache (w : World) (self : loc)
    (r : Rel) (value : limit) :
  rels w !! self = Some r ->
  let after := limit_choices_to_fset self value w in
  after.1 = Ok (match dict_limit_choices_to r with
                | Some cached => cached
                | None => LNone
                end) /\
  (_limit_choices_to <$> rels after.2 !! self) = Some value /\
  (dict_limit_choices_to <$> rels after.2 !! self) = Some None /\
  trace after.2 = trace w /\
  forall c,
    rel_cls r = PolymorphicManyToOneRel ->
    polymorphic_type r = Some (ObjPolymorphic c) ->
    (read_limit_choices_to self after.2).1 =
      Ok (merged_limit_choices_to value (subclasses_lookup c "pk")).
Proof.
  intros Hr after. subst after.
  rewrite (limit_choices_to_fset_run _ _ _ _ Hr). simpl.
  rewrite lookup_insert_eq. simpl.
  repeat split; try reflexivity.
  intros c Hcls Hpt.
  set (r' := set_dict_limit_choices_to None (set__limit_choices_to value r)).
  set (w' := with_rels (insert self r') w).
  assert (Hr' : rels w' !! self = Some r') by apply lookup_insert_eq.
  rewrite (read_limit_choices_to_is_fget w' self r' Hr' Hcls).
  rewrite (limit_choices_to_fget_run w' self r' c Hr' Hpt). reflexivity.
Qed.

Lemma setter_stores_override_and_evicts_cache_witness :
  let stale := LDict {[ "x" := VInt 1; "pk__in" := VSet [1; 2; 3] ]} in
  let w := sample_world (sample_rel (LDict {[ "x" := VInt 1 ]}) (Some stale)) in
  let after := limit_choices_to_fset 0%nat (LDict {[ "y" := VInt 2 ]}) w in
  rels w !! 0%nat = Some (sample_rel (LDict {[ "x" := VInt 1 ]}) (Some stale)) /\
  after.1 = Ok stale /\
  (read_limit_choices_to 0%nat after.2).1 =
    Ok (LDict {[ "y" := VInt 2; "pk__in" := VSet [1; 2; 3] ]}).
Proof.
  intros stale w after. subst after.
  split; [reflexivity |].
  destruct (setter_stores_override_and_evicts_cache w 0%nat
              (sample_rel (LDict {[ "x" := VInt 1 ]}) (Some stale))
              (LDict {[ "y" := VInt 2 ]}) eq_refl) as (Hret & _ & _ & _ & Hread).
  split; [exact Hret |].
  rewrite (Hread Animal eq_refl eq_refl). reflexivity.
Defined.

(** ** Construction *)

(** C5.  A class that does not derive from [BasePolymorphicModel] is
    refused at once: the constructor raises the assertion error with the
    store and the trace untouched, before the host's constructor runs.  A
    string skips the validation: the constructor is the host's constructor
    followed by the assignment of the string to the relation, and with the
    default target and relation class it succeeds and leaves the string as
    the polymorphic type, with nothing added to the trace. *)
Theorem init_validates_classes_only (host : Host) (w : World)
    (args : list kwarg) (kw : kwargs) :
  (forall cls_name,
     PolymorphicTypeField_init host (ObjClass cls_name) args kw w =
       (Raise (AssertionError validate_message), w)) /\
  (forall s,
     PolymorphicTypeField_init host (ObjStr s) args kw w =
       (let* self :=
          ForeignKey_init host rel_class_attribute default_error_messages
            args (init_defaults host kw) in
        let* f := get_field self in
        modify_rel (get_remote_field f) (set_polymorphic_type (ObjStr s));;
        ret self) w) /\
  (forall s,
     kw !! "to" = None ->
     kw !! "rel_class" = None ->
     exists self w' f r,
       PolymorphicTypeField_init host (ObjStr s) [] kw w = (Ok self, w') /\
       fields w' !! self = Some f /\
       rels w' !! get_remote_field f = Some r /\
       polymorphic_type r = Some (ObjStr s) /\
       trace w' = trace w).
Proof.
  split; [| split].
  - intros cls_name. reflexivity.
  - intros s. reflexivity.
  - intros s Hto Hrc.
    assert (Hd : init_defaults host kw !! "to" = Some (KObj ContentType))
      by (rewrite init_defaults_to, Hto; reflexivity).
    assert (Hobj : forall v, ContentType <> ObjOther v) by (intros v; discriminate).
    rewrite (PolymorphicTypeField_init_run host (ObjStr s) kw w _ eq_refl Hrc Hd Hobj).
    do 4 eexists. split; [reflexivity |]. simpl.
    split; [apply lookup_insert_eq |]. simpl.
    split; [apply lookup_insert_eq |]. split; reflexivity.
Qed.

Lemma init_validates_classes_only_witness :
  (∅ : kwargs) !! "to" = None /\
  (∅ : kwargs) !! "rel_class" = None /\
  PolymorphicTypeField_init sample_host (ObjClass "Site") [] ∅ empty_world =
    (Raise (AssertionError validate_message), empty_world) /\
  exists self w' f r,
    PolymorphicTypeField_init sample_host (ObjStr "zoo.Animal") [] ∅ empty_world
      = (Ok self, w') /\
    fields w' !! self = Some f /\
    rels w' !! get_remote_field f = Some r /\
    polymorphic_type r = Some (ObjStr "zoo.Animal") /\
    trace w' = trace empty_world.
Proof.
  split; [reflexivity |]. split; [reflexivity |].
  destruct (init_validates_classes_only sample_host empty_world [] ∅)
    as (Hcls & _ & Hstr).
  split; [apply Hcls |].
  apply Hstr; reflexivity.
Defined.

(** An object that is neither a string nor a class is refused as well. *)
Lemma init_rejects_other_objects (host : Host) (w : World)
    (args : list kwarg) (kw : kwargs) (v : pyval) :
  PolymorphicTypeField_init host (ObjOther v) args kw w =
    (Raise (AssertionError validate_message), w).
Proof. reflexivity. Qed.

(** C9, as amended.  The target [ContentType] and the related name ["+"]
    are defaults of the keyword arguments handed to the host's
    constructor: a keyword [to] or [related_name] of the caller replaces
    them.  The construction succeeds for a string or a polymorphic class,
    a target that is a class or a name and no [rel_class] keyword; the
    relation object then has the target and the related name found in
    those keyword arguments. *)
Theorem init_target_and_related_name_are_defaults (host : Host) (w : World)
    (pt : pyobj) (kw : kwargs) (to : pyobj) :
  isinstance_string pt || issubclass_BasePolymorphicModel pt = true ->
  kw !! "rel_class" = None ->
  init_defaults host kw !! "to" = Some (KObj to) ->
  (forall v, to <> ObjOther v) ->
  init_defaults host kw !! "to" =
    match kw !! "to" with
    | Some given => Some given
    | None => Some (KObj ContentType)
    end /\
  init_defaults host kw !! "related_name" =
    match kw !! "related_name" with
    | Some given => Some given
    | None => Some (KObj (ObjStr "+"))
    end /\
  exists self w' f r,
    PolymorphicTypeField_init host pt [] kw w = (Ok self, w') /\
    fields w' !! self = Some f /\
    rels w' !! get_remote_field f = Some r /\
    rel_cls r = PolymorphicManyToOneRel /\
    rel_model r = to /\
    (kw !! "to" = None -> rel_model r = ContentType) /\
    related_name r = kw_string (init_defaults host kw !! "related_name") /\
    (kw !! "related_name" = None -> related_name r = Some "+").
Proof.
  intros Hpt Hrc Hto Hobj.
  split; [apply init_defaults_to |]. split; [apply init_defaults_related_name |].
  rewrite (PolymorphicTypeField_init_run host pt kw w to Hpt Hrc Hto Hobj).
  do 4 eexists. split; [reflexivity |]. simpl.
  split; [apply lookup_insert_eq |]. simpl.
  split; [apply lookup_insert_eq |]. simpl.
  split; [reflexivity |]. split; [reflexivity |].
  split.
  - intros Hnone. rewrite init_defaults_to, Hnone in Hto. congruence.
  - split; [reflexivity |].
    intros Hnone. now rewrite init_defaults_related_name, Hnone.
Qed.

Lemma init_target_and_related_name_are_defaults_witness :
  init_defaults sample_host ∅ !! "to" = Some (KObj ContentType) /\
  exists self w' f r,
    PolymorphicTypeField_init sample_host (ObjPolymorphic Animal) [] ∅ empty_world
      = (Ok self, w') /\
    fields w' !! self = Some f /\
    rels w' !! get_remote_field f = Some r /\
    rel_model r = ContentType /\
    related_name r = Some "+".
Proof.
  split; [reflexivity |].
  assert (Hrc : (∅ : kwargs) !! "rel_class" = None) by reflexivity.
  assert (Hd : init_defaults sample_host ∅ !! "to" = Some (KObj ContentType))
    by reflexivity.
  assert (Hobj : forall v, ContentType <> ObjOther v) by (intros v; discriminate).
  destruct (init_target_and_related_name_are_defaults sample_host empty_world
              (ObjPolymorphic Animal) ∅ ContentType eq_refl Hrc Hd Hobj)
    as (_ & _ & self & w' & f & r & Hrun & Hf & Hr & _ & Hto & _ & _ & Hname).
  exists self, w', f, r.
  split; [exact Hrun |]. split; [exact Hf |]. split; [exact Hr |].
  split; [exact Hto |]. apply Hname. reflexivity.
Defined.

(** C9, as stated, fails: a caller that passes [to] and [related_name]
    gets a relation to that target under that related name. *)
Lemma init_keywords_override_target_and_related_name :
  exists self w' f r,
    PolymorphicTypeField_init sample_host (ObjStr "zoo.Animal") []
      {[ "to" := KObj (ObjClass "Site");
         "related_name" := KObj (ObjStr "animals") ]} empty_world
      = (Ok self, w') /\
    fields w' !! self = Some f /\
    rels w' !! get_remote_field f = Some r /\
    rel_model r = ObjClass "Site" /\
    rel_model r <> ContentType /\
    related_name r = Some "animals" /\
    related_name r <> Some "+".
Proof.
  do 4 eexists. split; [vm_compute; reflexivity |].
  split; [vm_compute; reflexivity |].
  split; [vm_compute; reflexivity |].
  simpl. repeat split; try reflexivity; discriminate.
Qed.

(** ** Resolution of the polymorphic type *)

(** [do_polymorphic_type] never fails on a field of the store. *)
Lemma do_polymorphic_type_run (w : World) (self : loc) (f : Field)
    (c : model_class) :
  fields w !! self = Some f ->
  do_polymorphic_type self c w =
    (Ok tt, with_fields (insert self (resolved_field c f)) w).
Proof.
  intros Hf. unfold do_polymorphic_type, resolved_field.
  step (get_field_Some _ _ _ Hf).
  destruct (is_NOT_PROVIDED (default f) && negb (null f)).
  - step (modify_field_Some _ _ _ _ Hf).
    unfold bind, modify_field. simpl. rewrite lookup_insert_eq. simpl.
    rewrite lookup_insert_eq. unfold with_fields. simpl.
    now rewrite !insert_insert_eq.
  - unfold bind at 1, ret at 1.
    step (modify_field_Some _ _ _ _ Hf).
    unfold modify_field. simpl. rewrite lookup_insert_eq.
    unfold with_fields. simpl. now rewrite insert_insert_eq.
Qed.

(** C6.  [do_polymorphic_type] on a resolved class: the default becomes
    [partial(get_content_type, c)] when it was [NOT_PROVIDED] and the field
    is not nullable (and stays as it was otherwise), and calling it gives
    the content type of the class; [type] becomes the [__name__] of the
    class; the message under ['invalid'] becomes the sentence below with
    the [object_name] of the class.  The other messages and attributes are
    kept. *)
Theorem do_polymorphic_type_installs (host : Host) (w : World) (self : loc)
    (f : Field) (c : PolymorphicModel) :
  fields w !! self = Some f ->
  exists f',
    do_polymorphic_type self c w = (Ok tt, with_fields (insert self f') w) /\
    default f' =
      (if is_NOT_PROVIDED (default f) && negb (null f)
       then DefaultContentTypeOf c else default f) /\
    (default f = NOT_PROVIDED -> null f = false ->
       call_default host (default f') = Some (get_content_type host c)) /\
    type f' = Some (__name__ c) /\
    error_messages f' !! "invalid" =
      Some ("Specified content type is not of a subclass of "
              +:+ object_name (_meta c) +:+ ".") /\
    (forall k, k <> "invalid" ->
       error_messages f' !! k = error_messages f !! k) /\
    name f' = name f /\ null f' = null f /\ remote_field f' = remote_field f.
Proof.
  intros Hf. exists (resolved_field c f).
  split; [now apply do_polymorphic_type_run |].
  unfold resolved_field. split.
  { destruct (is_NOT_PROVIDED (default f) && negb (null f)); reflexivity. }
  split.
  { intros Hd Hn. rewrite Hd, Hn. reflexivity. }
  split; [reflexivity |]. split.
  { simpl. apply lookup_insert_eq. }
  split.
  { intros k Hk. simpl. rewrite lookup_insert_ne by congruence.
    destruct (is_NOT_PROVIDED (default f) && negb (null f)); reflexivity. }
  destruct (is_NOT_PROVIDED (default f) && negb (null f)); repeat split.
Qed.

Lemma do_polymorphic_type_installs_witness :
  let w := sample_field_world (sample_field NOT_PROVIDED false)
             (sample_rel (LDict ∅) None) in
  fields w !! 0%nat = Some (sample_field NOT_PROVIDED false) /\
  exists f',
    do_polymorphic_type 0%nat Animal w = (Ok tt, with_fields (insert 0%nat f') w) /\
    call_default sample_host (default f')
      = Some {[ "pk" := VInt 1; "model" := VStr "Animal" ]} /\
    type f' = Some "Animal" /\
    error_messages f' !! "invalid"
      = Some "Specified content type is not of a subclass of Animal.".
Proof.
  intros w. split; [reflexivity |].
  destruct (do_polymorphic_type_installs sample_host w 0%nat
              (sample_field NOT_PROVIDED false) Animal eq_refl)
    as (f' & Hrun & _ & Hcall & Htype & Hmsg & _).
  exists f'. split; [exact Hrun |].
  split; [exact (Hcall eq_refl eq_refl) |].
  split; [exact Htype | exact Hmsg].
Defined.

(** C10.  The callback validates first: on anything that is not a class
    deriving from [BasePolymorphicModel] it raises the assertion error and
    the store is the one it started from, so the relation keeps its
    reference and the field its default, [type] and messages. *)
Theorem resolve_rejects_before_any_change (w : World) (model : string)
    (related_model : pyobj) (field : loc) :
  issubclass_BasePolymorphicModel related_model = false ->
  resolve_polymorphic_type model related_model field w =
    (Raise (AssertionError validate_message), w) /\
  rels (resolve_polymorphic_type model related_model field w).2 = rels w /\
  fields (resolve_polymorphic_type model related_model field w).2 = fields w.
Proof.
  intros Hsub.
  assert (Hrun : resolve_polymorphic_type model related_model field w =
                 (Raise (AssertionError validate_message), w)).
  { unfold resolve_polymorphic_type.
    now rewrite (bind_Raise _ _ _ _ _
                   (validate_polymorphic_type_rejects _ w Hsub)). }
  rewrite Hrun. repeat split.
Qed.

Lemma resolve_rejects_before_any_change_witness :
  let r := {| rel_cls := PolymorphicManyToOneRel;
              rel_model := ObjClass "ContentType";
              related_name := Some "+";
              field_name := None;
              _limit_choices_to := LDict ∅;
              dict_limit_choices_to := None;
              polymorphic_type := Some (ObjStr "zoo.Animal") |} in
  let w := sample_field_world (sample_field NOT_PROVIDED false) r in
  issubclass_BasePolymorphicModel (ObjClass "Site") = false /\
  resolve_polymorphic_type "Keeper" (ObjClass "Site") 0%nat w =
    (Raise (AssertionError validate_message), w).
Proof.
  intros r w. split; [reflexivity |].
  exact (proj1 (resolve_rejects_before_any_change w "Keeper" (ObjClass "Site")
                  0%nat eq_refl)).
Defined.

(** With a class that passes the validation the callback rebinds the
    relation and runs [do_polymorphic_type]. *)
Lemma resolve_accepts_polymorphic_class (w : World) (model : string)
    (c : PolymorphicModel) (field : loc) (f : Field) (r : Rel) :
  fields w !! field = Some f ->
  rels w !! get_remote_field f = Some r ->
  resolve_polymorphic_type model (ObjPolymorphic c) field w =
    do_polymorphic_type field c
      (with_rels (insert (get_remote_field f)
                    (set_polymorphic_type (ObjPolymorphic c) r)) w).
Proof.
  intros Hf Hr. unfold resolve_polymorphic_type.
  step (validate_polymorphic_type_accepts c w).
  step (get_field_Some _ _ _ Hf).
  now step (modify_rel_Some _ _ _ _ Hr).
Qed.

(** X8.  A string registered at construction and resolved later: the
    callback with a class deriving from [BasePolymorphicModel] rebinds the
    relation to the class and, for a field that is not nullable and has no
    default, installs the default that gives the content type of the
    class. *)
Lemma resolve_installs_content_type_default (host : Host) (w : World)
    (model : string) (c : PolymorphicModel) (field : loc) (f : Field)
    (r : Rel) :
  fields w !! field = Some f ->
  rels w !! get_remote_field f = Some r ->
  default f = NOT_PROVIDED ->
  null f = false ->
  exists w' f',
    resolve_polymorphic_type model (ObjPolymorphic c) field w = (Ok tt, w') /\
    (polymorphic_type <$> rels w' !! get_remote_field f)
      = Some (Some (ObjPolymorphic c)) /\
    fields w' !! field = Some f' /\
    call_default host (default f') = Some (get_content_type host c).
Proof.
  intros Hf Hr Hd Hn.
  rewrite (resolve_accepts_polymorphic_class w model c field f r Hf Hr).
  set (w1 := with_rels _ w).
  assert (Hf1 : fields w1 !! field = Some f) by exact Hf.
  rewrite (do_polymorphic_type_run w1 field f c Hf1).
  exists (with_fields (insert field (resolved_field c f)) w1), (resolved_field c f).
  split; [reflexivity |]. simpl.
  split; [now rewrite lookup_insert_eq |].
  split; [apply lookup_insert_eq |].
  unfold resolved_field. rewrite Hd, Hn. reflexivity.
Qed.

(** The host's [lazy_related_operation] records the call, and runs the
    callback at once when it finds the classes built. *)
Lemma lazy_related_operation_run (host : Host)
    (function : string -> pyobj -> loc -> M unit) (model : string)
    (related : pyobj) (field : loc) (w : World) :
  lazy_related_operation host function model related field w =
    let w1 := with_trace (fun t => t ++ [EvLazyRelatedOperation field related]) w in
    match loaded_models host model related with
    | Some related_model => function model related_model field w1
    | None => (Ok tt, w1)
    end.
Proof.
  unfold lazy_related_operation, bind, emit. cbv zeta.
  destruct (loaded_models host model related); reflexivity.
Qed.

(** [contribute_to_class] with a string as polymorphic type names the
    field and leaves the resolution to the host. *)
Lemma contribute_to_class_defers_string (host : Host) (w : World) (self : loc)
    (f : Field) (r : Rel) (s cls name : string) :
  fields w !! self = Some f ->
  rels w !! get_remote_field f = Some r ->
  polymorphic_type r = Some (ObjStr s) ->
  contribute_to_class host self cls name w =
    lazy_related_operation host resolve_polymorphic_type cls (ObjStr s) self
      (with_fields (insert self (set_name (Some name) f)) w).
Proof.
  intros Hf Hr Hpt. unfold contribute_to_class.
  step (modify_field_Some _ _ _ _ Hf).
  set (w1 := with_fields _ w).
  assert (Hf1 : fields w1 !! self = Some (set_name (Some name) f))
    by apply lookup_insert_eq.
  step (get_field_Some _ _ _ Hf1).
  assert (Hr1 : rels w1 !! get_remote_field (set_name (Some name) f) = Some r)
    by exact Hr.
  step (get_rel_Some _ _ _ Hr1).
  rewrite Hpt. reflexivity.
Qed.

(** With a class that has its primary key, it resolves at once; with one
    that has none yet, it leaves the resolution to the host as for a
    string. *)
Lemma contribute_to_class_resolves_class (host : Host) (w : World) (self : loc)
    (f : Field) (r : Rel) (c : PolymorphicModel) (cls name : string) :
  fields w !! self = Some f ->
  rels w !! get_remote_field f = Some r ->
  polymorphic_type r = Some (ObjPolymorphic c) ->
  contribute_to_class host self cls name w =
    let w1 := with_fields (insert self (set_name (Some name) f)) w in
    match pk (_meta c) with
    | Some _ => (Ok tt, with_fields
                          (insert self (resolved_field c (set_name (Some name) f)))
                          w1)
    | None =>
        lazy_related_operation host resolve_polymorphic_type cls
          (ObjPolymorphic c) self w1
    end.
Proof.
  intros Hf Hr Hpt. unfold contribute_to_class.
  step (modify_field_Some _ _ _ _ Hf).
  set (w1 := with_fields _ w).
  assert (Hf1 : fields w1 !! self = Some (set_name (Some name) f))
    by apply lookup_insert_eq.
  step (get_field_Some _ _ _ Hf1).
  assert (Hr1 : rels w1 !! get_remote_field (set_name (Some name) f) = Some r)
    by exact Hr.
  step (get_rel_Some _ _ _ Hr1).
  rewrite Hpt. cbv zeta. destruct (pk (_meta c)).
  - now apply do_polymorphic_type_run.
  - reflexivity.
Qed.

(** [contribute_to_class] does not validate the class it finds stored as
    polymorphic type: a model class outside the hierarchy of
    [BasePolymorphicModel] that has its primary key is resolved at once
    like any other. *)
Lemma contribute_to_class_resolves_plain_model (host : Host) (w : World)
    (self : loc) (f : Field) (r : Rel) (n cls attname k : string)
    (meta : Options) :
  fields w !! self = Some f ->
  rels w !! get_remote_field f = Some r ->
  polymorphic_type r = Some (ObjClass n) ->
  model_meta host n = Some meta ->
  pk meta = Some k ->
  contribute_to_class host self cls attname w =
    (Ok tt,
     with_fields
       (insert self (resolved_field (PlainModel n meta)
                       (set_name (Some attname) f)))
       (with_fields (insert self (set_name (Some attname) f)) w)).
Proof.
  intros Hf Hr Hpt Hmeta Hpk. unfold contribute_to_class.
  step (modify_field_Some _ _ _ _ Hf).
  set (w1 := with_fields _ w).
  assert (Hf1 : fields w1 !! self = Some (set_name (Some attname) f))
    by apply lookup_insert_eq.
  step (get_field_Some _ _ _ Hf1).
  assert (Hr1 : rels w1 !! get_remote_field (set_name (Some attname) f) = Some r)
    by exact Hr.
  step (get_rel_Some _ _ _ Hr1).
  rewrite Hpt. cbv zeta. rewrite Hmeta, Hpk.
  now apply do_polymorphic_type_run.
Qed.

(** ** The form field *)

(** C2, as amended.  [formfield] tests the target model of the relation
    (the [to] of the foreign key), not the polymorphic type: when that
    target is still a string it raises [ValueError] with a message that
    carries the [repr] of the name of the field and of the target, and
    builds nothing. *)
Theorem formfield_raises_on_unresolved_target (host : Host) (w : World)
    (self : loc) (f : Field) (r : Rel) (remote_model : string)
    (kw : formkwargs) :
  fields w !! self = Some f ->
  rels w !! get_remote_field f = Some r ->
  get_remote_model r = ObjStr remote_model ->
  formfield host self kw w =
    (Raise (ValueError
              ("Cannot create form field for " +:+ repr_name host (name f) +:+
               " yet, because its related model " +:+ repr host remote_model +:+
               " has not been loaded yet")),
     w).
Proof.
  intros Hf Hr Hm. unfold formfield. simpl.
  step (get_field_Some _ _ _ Hf).
  step (get_rel_Some _ _ _ Hr).
  rewrite Hm. reflexivity.
Qed.

Lemma formfield_raises_on_unresolved_target_witness :
  let r := {| rel_cls := PolymorphicManyToOneRel;
              rel_model := ObjStr "sites.Site";
              related_name := Some "+";
              field_name := None;
              _limit_choices_to := LDict ∅;
              dict_limit_choices_to := None;
              polymorphic_type := Some (ObjPolymorphic Animal) |} in
  let w := sample_field_world (sample_field NOT_PROVIDED false) r in
  fields w !! 0%nat = Some (sample_field NOT_PROVIDED false) /\
  rels w !! 0%nat = Some r /\
  formfield sample_host 0%nat ∅ w =
    (Raise (ValueError "Cannot create form field for 'content_type' yet, because its related model 'sites.Site' has not been loaded yet"),
     w).
Proof.
  intros r w. split; [reflexivity |]. split; [reflexivity |].
  exact (formfield_raises_on_unresolved_target sample_host w 0%nat
           (sample_field NOT_PROVIDED false) r "sites.Site" ∅
           eq_refl eq_refl eq_refl).
Defined.

(** When the target model is a class, [formfield] returns a form field
    over a fresh lazy queryset, whatever the polymorphic type is. *)
Lemma formfield_builds_lazy_queryset (host : Host) (w : World) (self : loc)
    (f : Field) (r : Rel) (kw : formkwargs) :
  fields w !! self = Some f ->
  rels w !! get_remote_field f = Some r ->
  isinstance_string (get_remote_model r) = false ->
  let db := (pop_using kw).1 in
  let queryset := fresh (dom (lazies w)) in
  formfield host self kw w =
    (Ok ((pop_using kw).2 ∪
         {[ "form_class" := FFormClass "ModelChoiceField";
            "queryset" := FQueryset queryset;
            "to_field_name" := formarg_of_option (field_name r) ]}),
     with_lazies
       (insert queryset
          {| _wrapped := None; lazy_remote_field := Some (get_remote_field f);
             lazy_db := db |}) w).
Proof.
  intros Hf Hr Hm db queryset. subst db. unfold formfield, pop_using.
  cbn [fst snd].
  set (db := match kw !! "using" with
             | None | Some FNone => DbAlias None
             | Some (FStr alias) => DbAlias (Some alias)
             | Some v => DbOther v
             end).
  set (kw' := delete "using" kw).
  step (get_field_Some _ _ _ Hf).
  step (get_rel_Some _ _ _ Hr).
  assert (Hrun :
    (let* queryset :=
       LazyPolymorphicTypeQueryset_init (get_remote_field f) db in
     let* r0 := get_rel (get_remote_field f) in
     let defaults : formkwargs :=
       {[ "form_class" := FFormClass "ModelChoiceField";
          "queryset" := FQueryset queryset;
          "to_field_name" := formarg_of_option (field_name r0) ]} in
     Field_formfield (kw' ∪ defaults)) w =
    (Ok (kw' ∪
         {[ "form_class" := FFormClass "ModelChoiceField";
            "queryset" := FQueryset queryset;
            "to_field_name" := formarg_of_option (field_name r) ]}),
     with_lazies
       (insert queryset
          {| _wrapped := None; lazy_remote_field := Some (get_remote_field f);
             lazy_db := db |}) w)).
  { unfold LazyPolymorphicTypeQueryset_init, LazyObject_init, alloc_lazy,
      modify_lazy, bind, ret, get_rel, Field_formfield. simpl.
    fold queryset. rewrite lookup_insert_eq. simpl. rewrite Hr.
    unfold with_lazies. simpl. rewrite insert_insert_eq. reflexivity. }
  destruct (get_remote_model r); try discriminate; exact Hrun.
Qed.

(** C2, as stated, fails: a field whose polymorphic type is still a string
    has the class [ContentType] as target, and [formfield] returns a form
    field for it; the queryset of that form field fails on first use. *)
Lemma formfield_accepts_unresolved_polymorphic_type :
  exists self w f r form w',
    PolymorphicTypeField_init sample_host (ObjStr "zoo.Animal") [] ∅ empty_world
      = (Ok self, w) /\
    fields w !! self = Some f /\
    rels w !! get_remote_field f = Some r /\
    polymorphic_type r = Some (ObjStr "zoo.Animal") /\
    formfield sample_host self ∅ w = (Ok form, w') /\
    form !! "queryset" = Some (FQueryset 0%nat) /\
    (LazyObject_getattr sample_host 0%nat "count" w').1
      = Raise (AttributeError "subclasses_lookup").
Proof.
  do 6 eexists. split; [vm_compute; reflexivity |].
  split; [vm_compute; reflexivity |].
  split; [vm_compute; reflexivity |].
  split; [reflexivity |].
  split; [vm_compute; reflexivity |].
  split; [reflexivity |].
  vm_compute. reflexivity.
Qed.

(** ** The lazy queryset *)

Lemma lookups_hold_spec (host : Host) (d : lookups) (row0 : row) :
  lookups_hold host d row0 = true <->
  forall k v, d !! k = Some v -> lookup_holds host k v row0 = true.
Proof.
  unfold lookups_hold. rewrite forallb_forall. split.
  - intros H k v Hkv. apply (H (k, v)).
    apply list_elem_of_In. now apply elem_of_map_to_list.
  - intros H [k v] Hin. simpl. apply H.
    apply elem_of_map_to_list. now apply list_elem_of_In.
Qed.

(** Whatever the override, a row that passes the merged filter passes the
    lookup of the subclasses. *)
Lemma merged_filter_implies_subclasses (host : Host) (override : limit)
    (subclasses : lookups) (row0 : row) :
  limit_holds host (merged_limit_choices_to override subclasses) row0 = true ->
  lookups_hold host subclasses row0 = true.
Proof.
  destruct override as [| d | q | t]; simpl.
  - trivial.
  - rewrite !lookups_hold_spec. intros H k v Hkv. apply H.
    rewrite dict_update_lookup. now rewrite Hkv.
  - intros H. apply andb_true_iff in H. tauto.
  - discriminate.
Qed.

Lemma default_manager_using_model (host : Host) (n : string) (db : dbarg)
    (rows : option string -> list row) (w : World) :
  table host n = Some rows ->
  default_manager_using host (ObjClass n) db w = (Ok n, w).
Proof. intros H. unfold default_manager_using. now rewrite H. Qed.

(** [_setup] on an empty wrapper whose relation has a model class as
    target and a class as polymorphic type, with an override the getter
    merges: one call of [subclasses_lookup], one query. *)
Lemma setup_run (host : Host) (w : World) (self lr : loc) (o : LazyObject)
    (r : Rel) (c : PolymorphicModel) (n : string)
    (rows : option string -> list row) :
  lazies w !! self = Some o ->
  lazy_remote_field o = Some lr ->
  rels w !! lr = Some r ->
  rel_cls r = PolymorphicManyToOneRel ->
  get_remote_model r = ObjClass n ->
  table host n = Some rows ->
  polymorphic_type r = Some (ObjPolymorphic c) ->
  (forall t, _limit_choices_to r <> LOther t) ->
  let filter := merged_limit_choices_to (_limit_choices_to r)
                  (subclasses_lookup c "pk") in
  let qs := {| qs_model := n; qs_db := lazy_db o; qs_filter := filter |} in
  _setup host self w =
    (Ok tt,
     {| rels := <[lr := set_dict_limit_choices_to (Some filter) r]> (rels w);
        fields := fields w;
        lazies := <[self := set_wrapped (Some qs) o]> (lazies w);
        trace := trace w ++ [EvSubclassesLookup (__name__ c) "pk";
                             EvComplexFilter n (lazy_db o) filter] |}).
Proof.
  intros Ho Hrf Hr Hcls Hm Ht Hpt Hov filter qs. unfold _setup.
  step (get_lazy_Some _ _ _ Ho). rewrite Hrf.
  step (get_rel_Some _ _ _ Hr). rewrite Hm.
  step (default_manager_using_model _ _ _ _ _ Ht).
  assert (Hread := read_limit_choices_to_is_fget _ _ _ Hr Hcls).
  rewrite (limit_choices_to_fget_run _ _ _ _ Hr Hpt) in Hread.
  step Hread. fold filter.
  assert (Hcf : forall w0, complex_filter n (lazy_db o) filter w0 =
            (Ok qs, with_trace (fun t => t ++ [EvComplexFilter n (lazy_db o) filter]) w0)).
  { intros w0. subst filter qs. unfold complex_filter.
    destruct (_limit_choices_to r) as [| d | q | t]; try reflexivity.
    exfalso. now apply (Hov t). }
  step (Hcf _).
  unfold modify_lazy. simpl. rewrite Ho.
  unfold with_lazies, with_trace, with_rels. simpl.
  now rewrite <- app_assoc.
Qed.

Lemma LazyPolymorphicTypeQueryset_init_run (w : World) (lr : loc)
    (db : option string) :
  let self := fresh (dom (lazies w)) in
  LazyPolymorphicTypeQueryset_init lr db w =
    (Ok self,
     with_lazies
       (insert self {| _wrapped := None; lazy_remote_field := Some lr;
                       lazy_db := db |}) w).
Proof.
  intros self.
  unfold LazyPolymorphicTypeQueryset_init, LazyObject_init, alloc_lazy,
    modify_lazy, bind, ret. simpl. fold self.
  rewrite lookup_insert_eq. unfold with_lazies. simpl.
  now rewrite insert_insert_eq.
Qed.

(** Access to a wrapper that is filled delegates to the wrapped query and
    changes nothing. *)
Lemma LazyObject_getattr_filled (host : Host) (w : World) (self : loc)
    (o : LazyObject) (qs : QuerySet) (attr : string) :
  lazies w !! self = Some o ->
  _wrapped o = Some qs ->
  LazyObject_getattr host self attr w = (Ok qs, w).
Proof.
  intros Ho Hw. unfold LazyObject_getattr.
  step (get_lazy_Some _ _ _ Ho). rewrite Hw.
  unfold bind at 1, ret at 1.
  step (get_lazy_Some _ _ _ Ho). now rewrite Hw.
Qed.

(** C7.  A lazy queryset over a relation whose target is a model class and
    whose polymorphic type is a class, with an override the getter merges.
    The construction stores the relation and the alias and leaves the
    wrapper empty, the trace and the relations untouched.  The first
    attribute access, whatever the attribute, runs [_setup] once: one
    lookup of the subclasses and one query, on the default manager of the
    target for the alias, filtered by the effective filter of the relation.
    Any later access, in any store where the wrapper is filled, returns
    the same query and changes nothing.  The rows of the query are rows of
    the target that satisfy the lookup of the subclasses. *)
Theorem lazy_queryset_materializes_once (host : Host) (w : World) (lr : loc)
    (r : Rel) (c : PolymorphicModel) (n : string)
    (rows : option string -> list row) (db : option string) :
  rels w !! lr = Some r ->
  rel_cls r = PolymorphicManyToOneRel ->
  get_remote_model r = ObjClass n ->
  table host n = Some rows ->
  polymorphic_type r = Some (ObjPolymorphic c) ->
  (forall t, _limit_choices_to r <> LOther t) ->
  let filter := merged_limit_choices_to (_limit_choices_to r)
                  (subclasses_lookup c "pk") in
  let qs := {| qs_model := n; qs_db := db; qs_filter := filter |} in
  exists self w1 w2,
    LazyPolymorphicTypeQueryset_init lr db w = (Ok self, w1) /\
    (_wrapped <$> lazies w1 !! self) = Some None /\
    trace w1 = trace w /\
    rels w1 = rels w /\
    (forall attr, LazyObject_getattr host self attr w1 = (Ok qs, w2)) /\
    trace w2 = trace w ++ [EvSubclassesLookup (__name__ c) "pk";
                           EvComplexFilter n db filter] /\
    (_wrapped <$> lazies w2 !! self) = Some (Some qs) /\
    (forall attr, LazyObject_getattr host self attr w2 = (Ok qs, w2)) /\
    (forall attr w3 o,
       lazies w3 !! self = Some o -> _wrapped o = Some qs ->
       LazyObject_getattr host self attr w3 = (Ok qs, w3)) /\
    (forall row0,
       In row0 (qs_rows host qs) ->
       In row0 (rows db) /\
       lookups_hold host (subclasses_lookup c "pk") row0 = true).
Proof.
  intros Hr Hcls Hm Ht Hpt Hov filter qs.
  set (self := fresh (dom (lazies w))).
  set (o := {| _wrapped := None; lazy_remote_field := Some lr; lazy_db := db |}).
  set (w1 := with_lazies (insert self o) w).
  assert (Ho : lazies w1 !! self = Some o) by apply lookup_insert_eq.
  assert (Hr1 : rels w1 !! lr = Some r) by exact Hr.
  pose proof (setup_run host w1 self lr o r c n rows Ho eq_refl Hr1 Hcls Hm Ht
                Hpt Hov) as Hsetup.
  cbv zeta in Hsetup. fold filter in Hsetup. simpl lazy_db in Hsetup.
  fold qs in Hsetup.
  match type of Hsetup with _ = (_, ?w2') => set (w2 := w2') in * end.
  assert (Ho2 : lazies w2 !! self = Some (set_wrapped (Some qs) o))
    by apply lookup_insert_eq.
  exists self, w1, w2.
  split; [apply LazyPolymorphicTypeQueryset_init_run |].
  split; [now rewrite Ho |].
  split; [reflexivity |]. split; [reflexivity |].
  split.
  { intros attr. unfold LazyObject_getattr.
    step (get_lazy_Some _ _ _ Ho). simpl _wrapped.
    step Hsetup.
    now step (get_lazy_Some _ _ _ Ho2). }
  split; [reflexivity |].
  split; [now rewrite Ho2 |].
  split.
  { intros attr. now apply (LazyObject_getattr_filled host w2 self _ qs attr Ho2). }
  split.
  { intros attr w3 o3 Ho3 Hw3.
    now apply (LazyObject_getattr_filled host w3 self o3 qs attr Ho3). }
  intros row0 Hin. unfold qs_rows in Hin. simpl in Hin. rewrite Ht in Hin.
  apply filter_In in Hin. destruct Hin as [Hin Hholds].
  split; [exact Hin |].
  now apply (merged_filter_implies_subclasses host (_limit_choices_to r)).
Qed.

Lemma lazy_queryset_materializes_once_witness :
  let r := sample_rel (LDict ∅) None in
  let w := sample_world r in
  let qs := {| qs_model := "ContentType"; qs_db := None;
               qs_filter := LDict {[ "pk__in" := VSet [1; 2; 3] ]} |} in
  rels w !! 0%nat = Some r /\
  table sample_host "ContentType" = Some (fun _ => sample_rows) /\
  qs_rows sample_host qs = [ {[ "pk" := VInt 1 ]}; {[ "pk" := VInt 2 ]} ] /\
  exists self w1 w2,
    LazyPolymorphicTypeQueryset_init 0%nat None w = (Ok self, w1) /\
    trace w1 = [] /\
    LazyObject_getattr sample_host self "count" w1 = (Ok qs, w2) /\
    trace w2 = [EvSubclassesLookup "Animal" "pk";
                EvComplexFilter "ContentType" None (qs_filter qs)] /\
    LazyObject_getattr sample_host self "all" w2 = (Ok qs, w2).
Proof.
  intros r w qs.
  split; [reflexivity |]. split; [reflexivity |]. split; [reflexivity |].
  assert (Hov : forall t, _limit_choices_to r <> LOther t)
    by (intros t; discriminate).
  destruct (lazy_queryset_materializes_once sample_host w 0%nat r Animal
              "ContentType" (fun _ => sample_rows) None
              eq_refl eq_refl eq_refl eq_refl eq_refl Hov)
    as (self & w1 & w2 & Hinit & _ & Ht1 & _ & Hfirst & Ht2 & _ & Hnext & _).
  exists self, w1, w2.
  split; [exact Hinit |]. split; [exact Ht1 |].
  split; [exact (Hfirst "count") |]. split; [exact Ht2 |].
  exact (Hnext "all").
Defined.

(** The first access fails, and the wrapper stays empty, when the
    polymorphic type of the relation is still a string. *)
Lemma lazy_queryset_fails_on_unresolved_type (host : Host) (w : World)
    (self lr : loc) (o : LazyObject) (r : Rel) (n s attr : string)
    (rows : option string -> list row) :
  lazies w !! self = Some o ->
  _wrapped o = None ->
  lazy_remote_field o = Some lr ->
  rels w !! lr = Some r ->
  rel_cls r = PolymorphicManyToOneRel ->
  get_remote_model r = ObjClass n ->
  table host n = Some rows ->
  polymorphic_type r = Some (ObjStr s) ->
  LazyObject_getattr host self attr w =
    (Raise (AttributeError "subclasses_lookup"), w).
Proof.
  intros Ho Hw Hrf Hr Hcls Hm Ht Hpt. unfold LazyObject_getattr.
  step (get_lazy_Some _ _ _ Ho). rewrite Hw.
  assert (Hsetup : _setup host self w =
                   (Raise (AttributeError "subclasses_lookup"), w)).
  { unfold _setup.
    step (get_lazy_Some _ _ _ Ho). rewrite Hrf.
    step (get_rel_Some _ _ _ Hr). rewrite Hm.
    step (default_manager_using_model _ _ _ _ _ Ht).
    assert (Hread := read_limit_choices_to_is_fget _ _ _ Hr Hcls).
    rewrite (limit_choices_to_fget_unresolved _ _ _ _ Hr Hpt) in Hread.
    now step_raise Hread. }
  now step_raise Hsetup.
Qed.

(** ** Introspection *)







(** ** Further properties of the relation *)

(** X1.  Reading [limit_choices_to] while the polymorphic type is anything
    but a class deriving from [BasePolymorphicModel] (a string not resolved
    yet, another class, another object, or no attribute at all) raises
    [AttributeError] and leaves the store as it was: nothing is cached and
    nothing is called. *)
Theorem read_raises_without_polymorphic_class (w : World) (self : loc)
    (r : Rel) :
  rels w !! self = Some r ->
  rel_cls r = PolymorphicManyToOneRel ->
  (forall c, polymorphic_type r <> Some (ObjPolymorphic c)) ->
  exists msg,
    read_limit_choices_to self w = (Raise (AttributeError msg), w).
Proof.
  intros Hr Hcls Hpt.
  rewrite (read_limit_choices_to_is_fget _ _ _ Hr Hcls).
  unfold limit_choices_to_fget. step (get_rel_Some _ _ _ Hr).
  destruct (polymorphic_type r) as [[s | c | n | v] |] eqn:E;
    try (eexists; reflexivity).
  exfalso. now apply (Hpt c).
Qed.

Lemma read_raises_without_polymorphic_class_witness :
  let r := {| rel_cls := PolymorphicManyToOneRel;
              rel_model := ObjClass "ContentType";
              related_name := Some "+";
              field_name := None;
              _limit_choices_to := LDict ∅;
              dict_limit_choices_to := None;
              polymorphic_type := Some (ObjStr "zoo.Animal") |} in
  rels (sample_world r) !! 0%nat = Some r /\
  exists msg,
    read_limit_choices_to 0%nat (sample_world r)
      = (Raise (AttributeError msg), sample_world r).
Proof.
  intros r. split; [reflexivity |].
  apply (read_raises_without_polymorphic_class (sample_world r) 0%nat r eq_refl
           eq_refl).
  intros c. discriminate.
Defined.

(** X3.  A read changes nothing but the cache entry of the relation it
    reads (and the trace): the override, the polymorphic type and the
    target stay, every other relation, field and lazy queryset stays, and
    reading again returns the same filter. *)
Theorem read_is_repeatable (w : World) (self : loc) (r : Rel)
    (c : PolymorphicModel) :
  rels w !! self = Some r ->
  rel_cls r = PolymorphicManyToOneRel ->
  polymorphic_type r = Some (ObjPolymorphic c) ->
  let w1 := (read_limit_choices_to self w).2 in
  (read_limit_choices_to self w1).1 = (read_limit_choices_to self w).1 /\
  rels w1 !! self =
    Some (set_dict_limit_choices_to
            (Some (merged_limit_choices_to (_limit_choices_to r)
                     (subclasses_lookup c "pk"))) r) /\
  (forall l, l <> self -> rels w1 !! l = rels w !! l) /\
  fields w1 = fields w /\
  lazies w1 = lazies w.
Proof.
  intros Hr Hcls Hpt w1. subst w1.
  rewrite (read_limit_choices_to_is_fget _ _ _ Hr Hcls).
  rewrite (limit_choices_to_fget_run _ _ _ _ Hr Hpt). simpl.
  set (v := merged_limit_choices_to _ _).
  set (r1 := set_dict_limit_choices_to (Some v) r).
  set (w1 := with_rels _ _).
  assert (Hr1 : rels w1 !! self = Some r1) by apply lookup_insert_eq.
  split.
  { rewrite (read_limit_choices_to_is_fget w1 self r1 Hr1 Hcls).
    now rewrite (limit_choices_to_fget_run w1 self r1 c Hr1 Hpt). }
  split; [exact Hr1 |].
  split; [| split; reflexivity].
  intros l Hl. subst w1. simpl. now rewrite lookup_insert_ne by congruence.
Qed.

Lemma read_is_repeatable_witness :
  let r := sample_rel (LDict {[ "x" := VInt 1 ]}) None in
  let w1 := (read_limit_choices_to 0%nat (sample_world r)).2 in
  rels (sample_world r) !! 0%nat = Some r /\
  (read_limit_choices_to 0%nat w1).1
    = (read_limit_choices_to 0%nat (sample_world r)).1.
Proof.
  intros r w1. split; [reflexivity |].
  exact (proj1 (read_is_repeatable (sample_world r) 0%nat r Animal
                  eq_refl eq_refl eq_refl)).
Defined.

(** X4.  What the setter returns is what the last read left in the cache:
    after an assignment and a read, the next call of the setter returns the
    filter merged from the earlier override; a call of the setter that
    follows another one with no read in between returns [None]. *)
Theorem setter_returns_what_the_last_read_stored (w : World) (self : loc)
    (r : Rel) (c : PolymorphicModel) (v1 v2 : limit) :
  rels w !! self = Some r ->
  rel_cls r = PolymorphicManyToOneRel ->
  polymorphic_type r = Some (ObjPolymorphic c) ->
  let w1 := (limit_choices_to_fset self v1 w).2 in
  let w2 := (read_limit_choices_to self w1).2 in
  (limit_choices_to_fset self v2 w2).1 =
    Ok (merged_limit_choices_to v1 (subclasses_lookup c "pk")) /\
  (limit_choices_to_fset self v2 w1).1 = Ok LNone.
Proof.
  intros Hr Hcls Hpt w1 w2. subst w2 w1.
  rewrite (limit_choices_to_fset_run _ _ _ v1 Hr). simpl.
  set (r1 := set_dict_limit_choices_to None (set__limit_choices_to v1 r)).
  set (w1 := with_rels _ w).
  assert (Hr1 : rels w1 !! self = Some r1) by apply lookup_insert_eq.
  split.
  - rewrite (read_limit_choices_to_is_fget w1 self r1 Hr1 Hcls).
    rewrite (limit_choices_to_fget_run w1 self r1 c Hr1 Hpt). simpl.
    set (r2 := set_dict_limit_choices_to _ r1).
    set (w2 := with_rels _ _).
    assert (Hr2 : rels w2 !! self = Some r2) by apply lookup_insert_eq.
    now rewrite (limit_choices_to_fset_run w2 self r2 v2 Hr2).
  - now rewrite (limit_choices_to_fset_run w1 self r1 v2 Hr1).
Qed.

Lemma setter_returns_what_the_last_read_stored_witness :
  let r := sample_rel LNone None in
  let w1 := (limit_choices_to_fset 0%nat (LDict {[ "x" := VInt 1 ]})
               (sample_world r)).2 in
  let w2 := (read_limit_choices_to 0%nat w1).2 in
  rels (sample_world r) !! 0%nat = Some r /\
  (limit_choices_to_fset 0%nat LNone w2).1 =
    Ok (LDict {[ "x" := VInt 1; "pk__in" := VSet [1; 2; 3] ]}) /\
  (limit_choices_to_fset 0%nat LNone w1).1 = Ok LNone.
Proof.
  intros r w1 w2. split; [reflexivity |].
  exact (setter_returns_what_the_last_read_stored (sample_world r) 0%nat r
           Animal (LDict {[ "x" := VInt 1 ]}) LNone eq_refl eq_refl eq_refl).
Defined.

(** X5.  With a dict override that agrees with the lookup of the
    subclasses on the keys they share (none, usually), the merged filter
    is the conjunction of the two: a row passes it exactly when it passes
    the override and the lookup of the subclasses. *)
Theorem dict_override_is_conjunction (host : Host) (d subclasses : lookups)
    (row0 : row) :
  (forall k v v', d !! k = Some v -> subclasses !! k = Some v' -> v = v') ->
  limit_holds host (merged_limit_choices_to (LDict d) subclasses) row0 =
    lookups_hold host d row0 && lookups_hold host subclasses row0.
Proof.
  intros Hagree. simpl. apply Bool.eq_iff_eq_true.
  rewrite andb_true_iff, !lookups_hold_spec. split.
  - intros H. split; intros k v Hkv; apply H; rewrite dict_update_lookup.
    + destruct (subclasses !! k) as [v' |] eqn:E; [| exact Hkv].
      now rewrite (Hagree k v v' Hkv E).
    + now rewrite Hkv.
  - intros [Hd Hs] k v Hkv. rewrite dict_update_lookup in Hkv.
    destruct (subclasses !! k) as [v' |] eqn:E.
    + injection Hkv as <-. now apply Hs.
    + now apply Hd.
Qed.

Lemma dict_override_is_conjunction_witness :
  limit_holds sample_host
    (merged_limit_choices_to (LDict {[ "pk" := VInt 2 ]})
       (subclasses_lookup Animal "pk")) {[ "pk" := VInt 2 ]}
  = lookups_hold sample_host {[ "pk" := VInt 2 ]} {[ "pk" := VInt 2 ]}
    && lookups_hold sample_host (subclasses_lookup Animal "pk")
         {[ "pk" := VInt 2 ]}.
Proof.
  apply (dict_override_is_conjunction sample_host).
  intros k v v' Hd Hs.
  destruct (decide (k = "pk")) as [-> | Hne].
  - vm_compute in Hs. discriminate.
  - rewrite lookup_singleton_ne in Hd by congruence. discriminate.
Defined.

Lemma limit_choices_to_other_override_witness :
  rels (sample_world (sample_rel (LOther "callable") None)) !! 0%nat
    = Some (sample_rel (LOther "callable") None) /\
  (read_limit_choices_to 0%nat
     (sample_world (sample_rel (LOther "callable") None))).1
    = Ok (LOther "callable").
Proof.
  split; [reflexivity |].
  exact (limit_choices_to_other_override
           (sample_world (sample_rel (LOther "callable") None)) 0%nat
           (sample_rel (LOther "callable") None) Animal "callable"
           eq_refl eq_refl eq_refl eq_refl).
Defined.

(** ** Further properties of the field *)

(** X6.  [contribute_to_class] on a field whose polymorphic type is a
    string, or a class that has no primary key yet, names the field and
    hands the resolution to the host's [lazy_related_operation], once.
    What follows is the host's doing.  As long as the host has not built
    the classes, nothing else happens: default, [type], messages and the
    relation are as they were.  When the host finds them built, the
    callback runs before [contribute_to_class] returns: with a class
    deriving from [BasePolymorphicModel] the relation is bound to it and
    the field set up for it; with anything else the assertion error of the
    validation comes out of [contribute_to_class], the relation
    untouched. *)
Theorem contribute_to_class_defers (host : Host) (w : World) (self : loc)
    (f : Field) (r : Rel) (pt : pyobj) (cls name : string) :
  fields w !! self = Some f ->
  rels w !! get_remote_field f = Some r ->
  polymorphic_type r = Some pt ->
  (exists s, pt = ObjStr s) \/
  (exists c, pt = ObjPolymorphic c /\ pk (_meta c) = None) ->
  (loaded_models host cls pt = None ->
   exists w',
     contribute_to_class host self cls name w = (Ok tt, w') /\
     fields w' !! self = Some (set_name (Some name) f) /\
     rels w' = rels w /\
     trace w' = trace w ++ [EvLazyRelatedOperation self pt]) /\
  (forall c',
   loaded_models host cls pt = Some (ObjPolymorphic c') ->
   exists w',
     contribute_to_class host self cls name w = (Ok tt, w') /\
     fields w' !! self = Some (resolved_field c' (set_name (Some name) f)) /\
     rels w' !! get_remote_field f
       = Some (set_polymorphic_type (ObjPolymorphic c') r) /\
     trace w' = trace w ++ [EvLazyRelatedOperation self pt]) /\
  (forall o,
   loaded_models host cls pt = Some o ->
   issubclass_BasePolymorphicModel o = false ->
   exists w',
     contribute_to_class host self cls name w
       = (Raise (AssertionError validate_message), w') /\
     fields w' !! self = Some (set_name (Some name) f) /\
     rels w' = rels w).
Proof.
  intros Hf Hr Hpt Hshape.
  set (f1 := set_name (Some name) f).
  set (w0 := with_fields (insert self f1) w).
  assert (Hrun : contribute_to_class host self cls name w =
                 lazy_related_operation host resolve_polymorphic_type cls pt
                   self w0).
  { destruct Hshape as [[s ->] | (c & -> & Hpk)].
    - exact (contribute_to_class_defers_string host w self f r s cls name
               Hf Hr Hpt).
    - rewrite (contribute_to_class_resolves_class host w self f r c cls name
                 Hf Hr Hpt).
      cbv zeta. now rewrite Hpk. }
  rewrite Hrun, lazy_related_operation_run. cbv zeta.
  set (w1 := with_trace _ w0).
  assert (Hf1 : fields w1 !! self = Some f1) by apply lookup_insert_eq.
  assert (Hr1 : rels w1 !! get_remote_field f1 = Some r) by exact Hr.
  split; [| split].
  - intros ->. exists w1. split; [reflexivity |].
    split; [exact Hf1 |]. split; reflexivity.
  - intros c' ->.
    rewrite (resolve_accepts_polymorphic_class w1 cls c' self f1 r Hf1 Hr1).
    set (w2 := with_rels _ w1).
    assert (Hf2 : fields w2 !! self = Some f1) by exact Hf1.
    rewrite (do_polymorphic_type_run w2 self f1 c' Hf2).
    eexists. split; [reflexivity |]. simpl.
    split; [apply lookup_insert_eq |].
    split; [apply (lookup_insert_eq (rels w)) |]. reflexivity.
  - intros o -> Hsub. exists w1. split.
    + unfold resolve_polymorphic_type.
      now step_raise (validate_polymorphic_type_rejects o w1 Hsub).
    + split; [exact Hf1 | reflexivity].
Qed.

Lemma contribute_to_class_defers_witness :
  let r := {| rel_cls := PolymorphicManyToOneRel;
              rel_model := ObjClass "ContentType";
              related_name := Some "+";
              field_name := None;
              _limit_choices_to := LDict ∅;
              dict_limit_choices_to := None;
              polymorphic_type := Some (ObjStr "zoo.Animal") |} in
  let f := sample_field NOT_PROVIDED false in
  let w := sample_field_world f r in
  fields w !! 0%nat = Some f /\
  loaded_models sample_host "Keeper" (ObjStr "zoo.Animal") = None /\
  loaded_models loaded_host "Keeper" (ObjStr "zoo.Animal")
    = Some (ObjPolymorphic Animal) /\
  (exists w',
     contribute_to_class sample_host 0%nat "Keeper" "animal_type" w = (Ok tt, w') /\
     fields w' !! 0%nat = Some (set_name (Some "animal_type") f) /\
     trace w' = [EvLazyRelatedOperation 0%nat (ObjStr "zoo.Animal")]) /\
  (exists w',
     contribute_to_class loaded_host 0%nat "Keeper" "animal_type" w = (Ok tt, w') /\
     fields w' !! 0%nat
       = Some (resolved_field Animal (set_name (Some "animal_type") f))).
Proof.
  intros r f w. split; [reflexivity |]. split; [reflexivity |].
  split; [reflexivity |].
  split.
  - destruct (contribute_to_class_defers sample_host w 0%nat f r
                (ObjStr "zoo.Animal") "Keeper" "animal_type" eq_refl eq_refl
                eq_refl (or_introl (ex_intro _ "zoo.Animal" eq_refl)))
      as (Hdefer & _).
    destruct (Hdefer eq_refl) as (w' & Hrun & Hf & _ & Ht).
    exists w'. split; [exact Hrun |]. split; [exact Hf | exact Ht].
  - destruct (contribute_to_class_defers loaded_host w 0%nat f r
                (ObjStr "zoo.Animal") "Keeper" "animal_type" eq_refl eq_refl
                eq_refl (or_introl (ex_intro _ "zoo.Animal" eq_refl)))
      as (_ & Hnow & _).
    destruct (Hnow Animal eq_refl) as (w' & Hrun & Hf & _).
    exists w'. split; [exact Hrun | exact Hf].
Defined.

(** X7.  [contribute_to_class] on a field whose polymorphic type is a class
    with a primary key resolves at once: nothing is registered with the
    host, the relation is untouched, and the field is named and set up as
    [do_polymorphic_type] does ([type], the message under ['invalid'], and
    the default when none was given and the field is not nullable; a given
    default, or the default of a nullable field, is kept). *)
Theorem contribute_to_class_resolves_at_once (host : Host) (w : World)
    (self : loc) (f : Field) (r : Rel) (c : PolymorphicModel)
    (cls attname k : string) :
  fields w !! self = Some f ->
  rels w !! get_remote_field f = Some r ->
  polymorphic_type r = Some (ObjPolymorphic c) ->
  pk (_meta c) = Some k ->
  exists w' f',
    contribute_to_class host self cls attname w = (Ok tt, w') /\
    fields w' !! self = Some f' /\
    rels w' = rels w /\
    trace w' = trace w /\
    name f' = Some attname /\
    type f' = Some (__name__ c) /\
    error_messages f' !! "invalid"
      = Some (invalid_message (object_name (_meta c))) /\
    (default f = NOT_PROVIDED -> null f = false ->
       call_default host (default f') = Some (get_content_type host c)) /\
    (default f <> NOT_PROVIDED \/ null f = true -> default f' = default f).
Proof.
  intros Hf Hr Hpt Hpk.
  rewrite (contribute_to_class_resolves_class host w self f r c cls attname
             Hf Hr Hpt).
  cbv zeta. rewrite Hpk.
  do 2 eexists. split; [reflexivity |]. simpl.
  split; [apply lookup_insert_eq |].
  split; [reflexivity |]. split; [reflexivity |].
  unfold resolved_field. simpl.
  split.
  { destruct (is_NOT_PROVIDED (default f) && negb (null f)); reflexivity. }
  split; [reflexivity |].
  split; [apply lookup_insert_eq |].
  split.
  - intros Hd Hn. rewrite Hd, Hn. reflexivity.
  - intros [Hd | Hn].
    + destruct (default f) eqn:E; [contradiction | |]; simpl; now rewrite E.
    + rewrite Hn, andb_false_r. reflexivity.
Qed.

Lemma contribute_to_class_resolves_at_once_witness :
  let r := sample_rel (LDict ∅) None in
  let f := sample_field NOT_PROVIDED false in
  let w := sample_field_world f r in
  fields w !! 0%nat = Some f /\
  pk (_meta Animal) = Some "id" /\
  exists w' f',
    contribute_to_class sample_host 0%nat "Keeper" "animal_type" w = (Ok tt, w') /\
    fields w' !! 0%nat = Some f' /\
    trace w' = [] /\
    name f' = Some "animal_type" /\
    type f' = Some "Animal" /\
    call_default sample_host (default f')
      = Some {[ "pk" := VInt 1; "model" := VStr "Animal" ]}.
Proof.
  intros r f w. split; [reflexivity |]. split; [reflexivity |].
  destruct (contribute_to_class_resolves_at_once sample_host w 0%nat f r Animal
              "Keeper" "animal_type" "id" eq_refl eq_refl eq_refl eq_refl)
    as (w' & f' & Hrun & Hf & _ & Ht & Hn & Hty & _ & Hd & _).
  exists w', f'. split; [exact Hrun |]. split; [exact Hf |].
  split; [exact Ht |]. split; [exact Hn |]. split; [exact Hty |].
  exact (Hd eq_refl eq_refl).
Defined.

Lemma resolve_installs_content_type_default_witness :
  let r := {| rel_cls := PolymorphicManyToOneRel;
              rel_model := ObjClass "ContentType";
              related_name := Some "+";
              field_name := None;
              _limit_choices_to := LDict ∅;
              dict_limit_choices_to := None;
              polymorphic_type := Some (ObjStr "zoo.Animal") |} in
  let f := sample_field NOT_PROVIDED false in
  let w := sample_field_world f r in
  fields w !! 0%nat = Some f /\
  rels w !! 0%nat = Some r /\
  exists w' f',
    resolve_polymorphic_type "Keeper" (ObjPolymorphic Animal) 0%nat w
      = (Ok tt, w') /\
    (polymorphic_type <$> rels w' !! 0%nat)
      = Some (Some (ObjPolymorphic Animal)) /\
    fields w' !! 0%nat = Some f' /\
    call_default sample_host (default f')
      = Some {[ "pk" := VInt 1; "model" := VStr "Animal" ]}.
Proof.
  intros r f w. split; [reflexivity |]. split; [reflexivity |].
  exact (resolve_installs_content_type_default sample_host w "Keeper" Animal
           0%nat f r eq_refl eq_refl eq_refl eq_refl).
Defined.

(** X9.  The default installed by a first resolution is not replaced by a
    later one: after [do_polymorphic_type] with one class and then with
    another, [type] and the message under ['invalid'] are those of the
    second class, and the default still gives the content type of the
    first (it is no longer [NOT_PROVIDED] when the second call tests it).
    Resolving twice with the same class is the same as resolving once. *)
Theorem second_resolution_keeps_first_default (host : Host) (w : World)
    (self : loc) (f : Field) (c1 c2 : PolymorphicModel) :
  fields w !! self = Some f ->
  default f = NOT_PROVIDED ->
  null f = false ->
  let w1 := (do_polymorphic_type self c1 w).2 in
  let w2 := (do_polymorphic_type self c2 w1).2 in
  (exists f2,
     fields w2 !! self = Some f2 /\
     call_default host (default f2) = Some (get_content_type host c1) /\
     type f2 = Some (__name__ c2) /\
     error_messages f2 !! "invalid"
       = Some (invalid_message (object_name (_meta c2)))) /\
  (do_polymorphic_type self c1 w1).2 = w1.
Proof.
  intros Hf Hd Hn w1 w2. subst w2 w1.
  rewrite (do_polymorphic_type_run w self f c1 Hf). simpl.
  set (f1 := resolved_field c1 f).
  set (w1 := with_fields _ w).
  assert (Hf1 : fields w1 !! self = Some f1) by apply lookup_insert_eq.
  assert (Hd1 : default f1 = DefaultContentTypeOf c1).
  { subst f1. unfold resolved_field. rewrite Hd, Hn. reflexivity. }
  split.
  - rewrite (do_polymorphic_type_run w1 self f1 c2 Hf1). simpl.
    exists (resolved_field c2 f1). split; [apply lookup_insert_eq |].
    split.
    { unfold resolved_field at 1. rewrite Hd1. simpl.
      now rewrite Hd, Hn. }
    split; [reflexivity |]. apply lookup_insert_eq.
  - rewrite (do_polymorphic_type_run w1 self f1 c1 Hf1). simpl.
    assert (Hsame : resolved_field c1 f1 = f1).
    { unfold resolved_field at 1. rewrite Hd1. simpl.
      subst f1. unfold resolved_field. rewrite Hd, Hn. simpl.
      unfold set_error_message, set_type. simpl.
      now rewrite insert_insert_eq. }
    rewrite Hsame. subst w1. unfold with_fields. simpl.
    now rewrite insert_insert_eq.
Qed.

Lemma second_resolution_keeps_first_default_witness :
  let Cat := {| __name__ := "Cat";
                _meta := {| object_name := "Cat"; pk := Some "id" |};
                subclasses_lookup := fun q => {[ q := VInt 5 ]} |} in
  let f := sample_field NOT_PROVIDED false in
  let w := sample_field_world f (sample_rel (LDict ∅) None) in
  let w2 := (do_polymorphic_type 0%nat Cat
               (do_polymorphic_type 0%nat Animal w).2).2 in
  fields w !! 0%nat = Some f /\
  exists f2,
    fields w2 !! 0%nat = Some f2 /\
    call_default sample_host (default f2)
      = Some {[ "pk" := VInt 1; "model" := VStr "Animal" ]} /\
    type f2 = Some "Cat".
Proof.
  intros Cat f w w2. split; [reflexivity |].
  destruct (second_resolution_keeps_first_default sample_host w 0%nat f Animal
              Cat eq_refl eq_refl eq_refl)
    as ((f2 & Hf2 & Hd & Hty & _) & _).
  exists f2. split; [exact Hf2 |]. split; [exact Hd | exact Hty].
Defined.

(** X13.  Every keyword argument of the caller reaches the host's
    constructor as given; the constructor of the field only fills in [to]
    and [related_name] (and [rel_class] on a host whose [ForeignKey] has no
    such class attribute) where the caller is silent, and adds nothing
    else. *)
Theorem init_defaults_keeps_caller_keywords (host : Host) (kw : kwargs) :
  (forall k v, kw !! k = Some v -> init_defaults host kw !! k = Some v) /\
  (forall k, kw !! k = None ->
     init_defaults host kw !! k =
       if String.eqb k "to" then Some (KObj ContentType)
       else if String.eqb k "related_name" then Some (KObj (ObjStr "+"))
       else if String.eqb k "rel_class" then
         (if ForeignKey_has_rel_class host then None
          else Some (KRelClass PolymorphicManyToOneRel))
       else None).
Proof.
  split.
  - intros k v Hk. unfold init_defaults. now apply lookup_union_Some_l.
  - intros k Hk.
    destruct (String.eqb_spec k "to") as [-> | H1].
    { now rewrite init_defaults_to, Hk. }
    destruct (String.eqb_spec k "related_name") as [-> | H2].
    { now rewrite init_defaults_related_name, Hk. }
    destruct (String.eqb_spec k "rel_class") as [-> | H3].
    { now rewrite init_defaults_rel_class, Hk. }
    now rewrite init_defaults_other.
Qed.

Lemma init_defaults_keeps_caller_keywords_witness :
  let kw : kwargs := {[ "null" := KBool true; "to" := KObj (ObjStr "sites.Site") ]} in
  init_defaults sample_host kw !! "null" = Some (KBool true) /\
  init_defaults sample_host kw !! "to" = Some (KObj (ObjStr "sites.Site")) /\
  init_defaults sample_host kw !! "related_name" = Some (KObj (ObjStr "+")) /\
  init_defaults sample_host kw !! "db_index" = None.
Proof.
  intros kw.
  destruct (init_defaults_keeps_caller_keywords sample_host kw) as [Hgiven Hnot].
  split; [apply Hgiven; reflexivity |].
  split; [apply Hgiven; reflexivity |].
  split; [now rewrite Hnot | now rewrite Hnot].
Defined.

(** X10.  [formfield] on a field whose target is loaded: the keyword
    [using] is consumed and never reaches the form field; every other
    keyword of the caller does, and wins over the defaults; the defaults
    are the model choice field, a new lazy queryset over the relation of
    the field for the database given by [using], not materialized, and the
    name of the target field of the relation.  No query is built and the
    filter of the relation is not read. *)
Theorem formfield_keyword_arguments (host : Host) (w : World) (self : loc)
    (f : Field) (r : Rel) (kw : formkwargs) :
  fields w !! self = Some f ->
  rels w !! get_remote_field f = Some r ->
  isinstance_string (get_remote_model r) = false ->
  exists form w',
    formfield host self kw w = (Ok form, w') /\
    form !! "using" = None /\
    (forall k v, k <> "using" -> kw !! k = Some v -> form !! k = Some v) /\
    (kw !! "form_class" = None ->
       form !! "form_class" = Some (FFormClass "ModelChoiceField")) /\
    (kw !! "to_field_name" = None ->
       form !! "to_field_name" = Some (formarg_of_option (field_name r))) /\
    (kw !! "queryset" = None ->
       exists l o,
         form !! "queryset" = Some (FQueryset l) /\
         lazies w !! l = None /\
         lazies w' !! l = Some o /\
         _wrapped o = None /\
         lazy_remote_field o = Some (get_remote_field f) /\
         lazy_db o = (pop_using kw).1) /\
    rels w' = rels w /\ fields w' = fields w /\ trace w' = trace w.
Proof.
  intros Hf Hr Hm.
  rewrite (formfield_builds_lazy_queryset host w self f r kw Hf Hr Hm).
  cbv zeta. set (l := fresh (dom (lazies w))).
  do 2 eexists. split; [reflexivity |]. simpl.
  split.
  { rewrite lookup_union, lookup_delete_eq. reflexivity. }
  split.
  { intros k v Hk Hkv. apply lookup_union_Some_l.
    now rewrite lookup_delete_ne by congruence. }
  split.
  { intros Hnone. rewrite lookup_union, lookup_delete_ne by discriminate.
    rewrite Hnone. reflexivity. }
  split.
  { intros Hnone. rewrite lookup_union, lookup_delete_ne by discriminate.
    rewrite Hnone. reflexivity. }
  split.
  { intros Hnone. exists l. eexists.
    split.
    { rewrite lookup_union, lookup_delete_ne by discriminate.
      rewrite Hnone. reflexivity. }
    split.
    { apply not_elem_of_dom. apply is_fresh. }
    split; [apply lookup_insert_eq |]. repeat split. }
  repeat split.
Qed.

Lemma formfield_keyword_arguments_witness :
  let r := sample_rel (LDict ∅) None in
  let f := sample_field NOT_PROVIDED false in
  let w := sample_field_world f r in
  let kw : formkwargs := {[ "using" := FStr "replica"; "label" := FStr "Kind" ]} in
  fields w !! 0%nat = Some f /\
  rels w !! 0%nat = Some r /\
  exists form w',
    formfield sample_host 0%nat kw w = (Ok form, w') /\
    form !! "using" = None /\
    form !! "label" = Some (FStr "Kind") /\
    form !! "to_field_name" = Some (FStr "id") /\
    trace w' = [].
Proof.
  intros r f w kw. split; [reflexivity |]. split; [reflexivity |].
  destruct (formfield_keyword_arguments sample_host w 0%nat f r kw
              eq_refl eq_refl eq_refl)
    as (form & w' & Hrun & Hu & Hkw & _ & Hto & _ & _ & _ & Ht).
  exists form, w'. split; [exact Hrun |]. split; [exact Hu |].
  split; [apply Hkw; [discriminate | reflexivity] |].
  split; [apply Hto; reflexivity | exact Ht].
Defined.

(** ** Further properties of the lazy queryset *)

(** The first access to an empty wrapper runs [_setup] and returns the
    query it built. *)
Lemma LazyObject_getattr_first (host : Host) (w : World) (self lr : loc)
    (o : LazyObject) (r : Rel) (c : PolymorphicModel) (n attr : string)
    (rows : option string -> list row) :
  lazies w !! self = Some o ->
  _wrapped o = None ->
  lazy_remote_field o = Some lr ->
  rels w !! lr = Some r ->
  rel_cls r = PolymorphicManyToOneRel ->
  get_remote_model r = ObjClass n ->
  table host n = Some rows ->
  polymorphic_type r = Some (ObjPolymorphic c) ->
  (forall t, _limit_choices_to r <> LOther t) ->
  let filter := merged_limit_choices_to (_limit_choices_to r)
                  (subclasses_lookup c "pk") in
  let qs := {| qs_model := n; qs_db := lazy_db o; qs_filter := filter |} in
  LazyObject_getattr host self attr w =
    (Ok qs,
     {| rels := <[lr := set_dict_limit_choices_to (Some filter) r]> (rels w);
        fields := fields w;
        lazies := <[self := set_wrapped (Some qs) o]> (lazies w);
        trace := trace w ++ [EvSubclassesLookup (__name__ c) "pk";
                             EvComplexFilter n (lazy_db o) filter] |}).
Proof.
  intros Ho Hw Hrf Hr Hcls Hm Ht Hpt Hov filter qs.
  unfold LazyObject_getattr.
  step (get_lazy_Some _ _ _ Ho). rewrite Hw.
  step (setup_run host w self lr o r c n rows Ho Hrf Hr Hcls Hm Ht Hpt Hov).
  fold filter qs.
  unfold bind, get_lazy. simpl. now rewrite lookup_insert_eq.
Qed.

(** X11.  A first access that fails because the polymorphic type of the
    relation is still a string leaves the store as it was, the wrapper
    empty: the failure is not remembered.  Once the relation is bound to a
    class, the next access to the same wrapper materializes the query with
    the filter merged for that class. *)
Theorem lazy_queryset_failure_is_not_remembered (host : Host) (w : World)
    (self lr : loc) (o : LazyObject) (r : Rel) (c : PolymorphicModel)
    (n s attr : string) (rows : option string -> list row) :
  lazies w !! self = Some o ->
  _wrapped o = None ->
  lazy_remote_field o = Some lr ->
  rels w !! lr = Some r ->
  rel_cls r = PolymorphicManyToOneRel ->
  get_remote_model r = ObjClass n ->
  table host n = Some rows ->
  polymorphic_type r = Some (ObjStr s) ->
  (forall t, _limit_choices_to r <> LOther t) ->
  LazyObject_getattr host self attr w =
    (Raise (AttributeError "subclasses_lookup"), w) /\
  let w' := with_rels
              (insert lr (set_polymorphic_type (ObjPolymorphic c) r)) w in
  (LazyObject_getattr host self attr w').1 =
    Ok {| qs_model := n; qs_db := lazy_db o;
          qs_filter := merged_limit_choices_to (_limit_choices_to r)
                         (subclasses_lookup c "pk") |}.
Proof.
  intros Ho Hw Hrf Hr Hcls Hm Ht Hpt Hov.
  split.
  { now apply (lazy_queryset_fails_on_unresolved_type host w self lr o r n s
                 attr rows). }
  intros w'.
  set (r' := set_polymorphic_type (ObjPolymorphic c) r).
  assert (Hr' : rels w' !! lr = Some r') by apply lookup_insert_eq.
  assert (Ho' : lazies w' !! self = Some o) by exact Ho.
  now rewrite (LazyObject_getattr_first host w' self lr o r' c n attr rows
                 Ho' Hw Hrf Hr' Hcls Hm Ht eq_refl Hov).
Qed.

Lemma lazy_queryset_failure_is_not_remembered_witness :
  let r := {| rel_cls := PolymorphicManyToOneRel;
              rel_model := ObjClass "ContentType";
              related_name := Some "+";
              field_name := None;
              _limit_choices_to := LDict ∅;
              dict_limit_choices_to := None;
              polymorphic_type := Some (ObjStr "zoo.Animal") |} in
  let o := {| _wrapped := None; lazy_remote_field := Some 0%nat;
              lazy_db := None |} in
  let w := {| rels := {[ 0%nat := r ]}; fields := ∅;
              lazies := {[ 0%nat := o ]}; trace := [] |} in
  lazies w !! 0%nat = Some o /\
  rels w !! 0%nat = Some r /\
  table sample_host "ContentType" = Some (fun _ => sample_rows) /\
  LazyObject_getattr sample_host 0%nat "count" w =
    (Raise (AttributeError "subclasses_lookup"), w).
Proof.
  intros r o w.
  split; [reflexivity |]. split; [reflexivity |]. split; [reflexivity |].
  assert (Hov : forall t, _limit_choices_to r <> LOther t)
    by (intros t; discriminate).
  exact (proj1 (lazy_queryset_failure_is_not_remembered sample_host w 0%nat
                  0%nat o r Animal "ContentType" "zoo.Animal" "count"
                  (fun _ => sample_rows)
                  eq_refl eq_refl eq_refl eq_refl eq_refl eq_refl eq_refl
                  eq_refl Hov)).
Defined.

(** X12.  The lazy queryset holds the relation, not a copy of its filter:
    an override assigned after the queryset was built and before its first
    use is the one the query is filtered by. *)
Theorem lazy_queryset_reads_filter_at_first_access (host : Host) (w : World)
    (lr : loc) (r : Rel) (c : PolymorphicModel) (n attr : string)
    (rows : option string -> list row) (db : option string) (v : limit) :
  rels w !! lr = Some r ->
  rel_cls r = PolymorphicManyToOneRel ->
  get_remote_model r = ObjClass n ->
  table host n = Some rows ->
  polymorphic_type r = Some (ObjPolymorphic c) ->
  (forall t, v <> LOther t) ->
  exists self w1 w2,
    LazyPolymorphicTypeQueryset_init lr db w = (Ok self, w1) /\
    assign_limit_choices_to lr v w1 = (Ok tt, w2) /\
    (LazyObject_getattr host self attr w2).1 =
      Ok {| qs_model := n; qs_db := db;
            qs_filter := merged_limit_choices_to v (subclasses_lookup c "pk") |}.
Proof.
  intros Hr Hcls Hm Ht Hpt Hv.
  set (self := fresh (dom (lazies w))).
  set (o := {| _wrapped := None; lazy_remote_field := Some lr; lazy_db := db |}).
  set (w1 := with_lazies (insert self o) w).
  assert (Hr1 : rels w1 !! lr = Some r) by exact Hr.
  set (r2 := set_dict_limit_choices_to None (set__limit_choices_to v r)).
  set (w2 := with_rels (insert lr r2) w1).
  exists self, w1, w2.
  split; [apply LazyPolymorphicTypeQueryset_init_run |].
  split.
  { rewrite (assign_limit_choices_to_run w1 lr r v Hr1). now rewrite Hcls. }
  assert (Ho2 : lazies w2 !! self = Some o) by apply lookup_insert_eq.
  assert (Hr2 : rels w2 !! lr = Some r2) by apply lookup_insert_eq.
  now rewrite (LazyObject_getattr_first host w2 self lr o r2 c n attr rows
                 Ho2 eq_refl eq_refl Hr2 Hcls Hm Ht Hpt Hv).
Qed.

Lemma lazy_queryset_reads_filter_at_first_access_witness :
  let r := sample_rel (LDict ∅) None in
  rels (sample_world r) !! 0%nat = Some r /\
  exists self w1 w2,
    LazyPolymorphicTypeQueryset_init 0%nat None (sample_world r) = (Ok self, w1) /\
    assign_limit_choices_to 0%nat (LDict {[ "pk" := VInt 2 ]}) w1 = (Ok tt, w2) /\
    (LazyObject_getattr sample_host self "count" w2).1 =
      Ok {| qs_model := "ContentType"; qs_db := None;
            qs_filter := LDict {[ "pk" := VInt 2; "pk__in" := VSet [1; 2; 3] ]} |}.
Proof.
  intros r. split; [reflexivity |].
  assert (Hv : forall t, LDict {[ "pk" := VInt 2 ]} <> LOther t)
    by (intros t; discriminate).
  exact (lazy_queryset_reads_filter_at_first_access sample_host (sample_world r)
           0%nat r Animal "ContentType" "count" (fun _ => sample_rows) None
           (LDict {[ "pk" := VInt 2 ]}) eq_refl eq_refl eq_refl eq_refl eq_refl Hv).
Defined.



(** ** From declaration to resolution *)

(** The callback with a class deriving from [BasePolymorphicModel], on a
    field that has no default and is not nullable or that already has the
    default of that class, and what the field and its relation are
    afterwards. *)
Lemma resolve_then_read (host : Host) (w : World) (model : string)
    (c : PolymorphicModel) (self : loc) (f : Field) (r : Rel) :
  fields w !! self = Some f ->
  rels w !! get_remote_field f = Some r ->
  rel_cls r = PolymorphicManyToOneRel ->
  (default f = NOT_PROVIDED /\ null f = false) \/
  default f = DefaultContentTypeOf c ->
  exists w3 f3,
    resolve_polymorphic_type model (ObjPolymorphic c) self w = (Ok tt, w3) /\
    fields w3 !! self = Some f3 /\
    get_remote_field f3 = get_remote_field f /\
    name f3 = name f /\
    type f3 = Some (__name__ c) /\
    call_default host (default f3) = Some (get_content_type host c) /\
    (read_limit_choices_to (get_remote_field f) w3).1 =
      Ok (merged_limit_choices_to (_limit_choices_to r)
            (subclasses_lookup c "pk")).
Proof.
  intros Hf Hr Hcls Hdef.
  rewrite (resolve_accepts_polymorphic_class w model c self f r Hf Hr).
  set (r3 := set_polymorphic_type (ObjPolymorphic c) r).
  set (w2 := with_rels (insert (get_remote_field f) r3) w).
  assert (Hf2 : fields w2 !! self = Some f) by exact Hf.
  rewrite (do_polymorphic_type_run w2 self f c Hf2).
  set (f3 := resolved_field c f).
  set (w3 := with_fields (insert self f3) w2).
  assert (Hr3 : rels w3 !! get_remote_field f = Some r3)
    by exact (lookup_insert_eq (rels w) (get_remote_field f) r3).
  assert (Hf3 : exists d,
            f3 = set_error_message "invalid"
                   (invalid_message (object_name (_meta c)))
                   (set_type (Some (__name__ c)) (set_default d f)) /\
            call_default host d = Some (get_content_type host c)).
  { subst f3. unfold resolved_field.
    destruct Hdef as [[Hd Hn] | Hd].
    - rewrite Hd, Hn. simpl. eexists. split; [reflexivity | reflexivity].
    - rewrite Hd. simpl. exists (DefaultContentTypeOf c).
      split; [| reflexivity].
      unfold set_error_message, set_type, set_default. simpl.
      now rewrite Hd. }
  destruct Hf3 as (d & Hf3 & Hd).
  exists w3, f3. split; [reflexivity |].
  split; [apply lookup_insert_eq |].
  rewrite Hf3.
  split; [reflexivity |]. split; [reflexivity |]. split; [reflexivity |].
  split; [exact Hd |].
  rewrite (read_limit_choices_to_is_fget w3 _ r3 Hr3 Hcls).
  now rewrite (limit_choices_to_fget_run w3 _ r3 c Hr3 eq_refl).
Qed.

(** X14.  The life of a field declared with the name of a class, with the
    default target, no default value and not nullable, on a host for which
    that name stands for the class once it is built.  After the
    construction, reading the filter of its relation fails, the name being
    no class.  [contribute_to_class] names the field and leaves the
    resolution to the host.  When the host has called back with the class,
    the field has its [type], a default that gives the content type of the
    class, and the filter of the relation can be read: it is the override
    given at construction (the empty dict when none was given) merged with
    the lookup of the subclasses. *)
Theorem string_reference_lifecycle (host : Host) (w : World)
    (s cls attname model : string) (c : PolymorphicModel) (kw : kwargs) :
  kw !! "to" = None ->
  kw !! "rel_class" = None ->
  kw !! "default" = None ->
  kw !! "null" = None ->
  (forall o, loaded_models host cls (ObjStr s) = Some o ->
             o = ObjPolymorphic c) ->
  exists self lr w1 w2 w3 f3,
    PolymorphicTypeField_init host (ObjStr s) [] kw w = (Ok self, w1) /\
    (exists msg,
       read_limit_choices_to lr w1 = (Raise (AttributeError msg), w1)) /\
    contribute_to_class host self cls attname w1 = (Ok tt, w2) /\
    resolve_polymorphic_type model (ObjPolymorphic c) self w2 = (Ok tt, w3) /\
    fields w3 !! self = Some f3 /\
    get_remote_field f3 = lr /\
    name f3 = Some attname /\
    type f3 = Some (__name__ c) /\
    call_default host (default f3) = Some (get_content_type host c) /\
    (read_limit_choices_to lr w3).1 =
      Ok (merged_limit_choices_to (effective_override (init_defaults host kw))
            (subclasses_lookup c "pk")).
Proof.
  intros Hto Hrc Hdef Hnull Hloaded.
  assert (Hd : init_defaults host kw !! "to" = Some (KObj ContentType))
    by (rewrite init_defaults_to, Hto; reflexivity).
  assert (Hobj : forall v, ContentType <> ObjOther v) by (intros v; discriminate).
  set (kw' := init_defaults host kw).
  set (lr := fresh (dom (rels w))).
  set (self := fresh (dom (fields w))).
  set (r1 := set_polymorphic_type (ObjStr s)
               (built_rel PolymorphicManyToOneRel ContentType kw')).
  set (f1 := built_field host default_error_messages kw' lr).
  set (w1 := with_fields (insert self f1) (with_rels (insert lr r1) w)).
  assert (Hinit : PolymorphicTypeField_init host (ObjStr s) [] kw w = (Ok self, w1))
    by exact (PolymorphicTypeField_init_run host (ObjStr s) kw w ContentType
                eq_refl Hrc Hd Hobj).
  assert (Hf1 : fields w1 !! self = Some f1) by apply lookup_insert_eq.
  assert (Hr1 : rels w1 !! lr = Some r1) by apply lookup_insert_eq.
  assert (Hdf : default f1 = NOT_PROVIDED).
  { subst f1 kw'. simpl.
    rewrite init_defaults_other by discriminate. now rewrite Hdef. }
  assert (Hnf : null f1 = false).
  { subst f1 kw'. simpl.
    rewrite init_defaults_other by discriminate. now rewrite Hnull. }
  set (f2 := set_name (Some attname) f1).
  assert (Hctc : exists w2 f2' r2,
            contribute_to_class host self cls attname w1 = (Ok tt, w2) /\
            fields w2 !! self = Some f2' /\
            rels w2 !! get_remote_field f2' = Some r2 /\
            get_remote_field f2' = lr /\
            name f2' = Some attname /\
            rel_cls r2 = PolymorphicManyToOneRel /\
            _limit_choices_to r2 = effective_override kw' /\
            ((default f2' = NOT_PROVIDED /\ null f2' = false) \/
             default f2' = DefaultContentTypeOf c)).
  { rewrite (contribute_to_class_defers_string host w1 self f1 r1 s cls attname
               Hf1 Hr1 eq_refl).
    rewrite lazy_related_operation_run. cbv zeta.
    set (w2 := with_trace _ _).
    assert (Hf2 : fields w2 !! self = Some f2) by apply lookup_insert_eq.
    assert (Hr2 : rels w2 !! get_remote_field f2 = Some r1) by exact Hr1.
    destruct (loaded_models host cls (ObjStr s)) as [o |] eqn:Hl.
    - rewrite (Hloaded o eq_refl).
      rewrite (resolve_accepts_polymorphic_class w2 cls c self f2 r1 Hf2 Hr2).
      set (r3 := set_polymorphic_type (ObjPolymorphic c) r1).
      set (w2' := with_rels _ w2).
      assert (Hf2' : fields w2' !! self = Some f2) by exact Hf2.
      rewrite (do_polymorphic_type_run w2' self f2 c Hf2').
      assert (Hres : resolved_field c f2 =
                set_error_message "invalid"
                  (invalid_message (object_name (_meta c)))
                  (set_type (Some (__name__ c))
                     (set_default (DefaultContentTypeOf c) f2))).
      { unfold resolved_field.
        change (default f2) with (default f1). change (null f2) with (null f1).
        now rewrite Hdf, Hnf. }
      exists (with_fields (insert self (resolved_field c f2)) w2'),
             (resolved_field c f2), r3.
      split; [reflexivity |].
      split; [apply lookup_insert_eq |].
      rewrite Hres.
      split; [exact (lookup_insert_eq (rels w2) lr r3) |].
      split; [reflexivity |]. split; [reflexivity |].
      split; [reflexivity |]. split; [reflexivity |].
      right. reflexivity.
    - exists w2, f2, r1.
      split; [reflexivity |]. split; [exact Hf2 |]. split; [exact Hr2 |].
      split; [reflexivity |]. split; [reflexivity |].
      split; [reflexivity |]. split; [reflexivity |].
      left. split; [exact Hdf | exact Hnf]. }
  destruct Hctc as (w2 & f2' & r2 & Hrun & Hf2 & Hr2 & Hlr & Hname & Hcls & Hov & Hd2).
  destruct (resolve_then_read host w2 model c self f2' r2 Hf2 Hr2 Hcls Hd2)
    as (w3 & f3 & Hres & Hf3 & Hlr3 & Hn3 & Hty & Hcall & Hread).
  exists self, lr, w1, w2, w3, f3.
  split; [exact Hinit |].
  split.
  { rewrite (read_limit_choices_to_is_fget w1 lr r1 Hr1 eq_refl).
    eexists.
    exact (limit_choices_to_fget_unresolved w1 lr r1 s Hr1 eq_refl). }
  split; [exact Hrun |]. split; [exact Hres |]. split; [exact Hf3 |].
  split; [now rewrite Hlr3 |]. split; [now rewrite Hn3 |].
  split; [exact Hty |]. split; [exact Hcall |].
  rewrite <- Hlr, Hread, Hov. reflexivity.
Qed.

Lemma string_reference_lifecycle_witness :
  (∅ : kwargs) !! "to" = None /\
  exists self lr w1 w2 w3 f3,
    PolymorphicTypeField_init loaded_host (ObjStr "zoo.Animal") [] ∅ empty_world
      = (Ok self, w1) /\
    contribute_to_class loaded_host self "Keeper" "animal_type" w1 = (Ok tt, w2) /\
    resolve_polymorphic_type "Keeper" (ObjPolymorphic Animal) self w2
      = (Ok tt, w3) /\
    fields w3 !! self = Some f3 /\
    type f3 = Some "Animal" /\
    (read_limit_choices_to lr w3).1
      = Ok (LDict {[ "pk__in" := VSet [1; 2; 3] ]}).
Proof.
  split; [reflexivity |].
  assert (H1 : (∅ : kwargs) !! "to" = None) by reflexivity.
  assert (H2 : (∅ : kwargs) !! "rel_class" = None) by reflexivity.
  assert (H3 : (∅ : kwargs) !! "default" = None) by reflexivity.
  assert (H4 : (∅ : kwargs) !! "null" = None) by reflexivity.
  assert (H5 : forall o,
            loaded_models loaded_host "Keeper" (ObjStr "zoo.Animal") = Some o ->
            o = ObjPolymorphic Animal)
    by (intros o Ho; now injection Ho as <-).
  destruct (string_reference_lifecycle loaded_host empty_world "zoo.Animal"
              "Keeper" "animal_type" "Keeper" Animal ∅ H1 H2 H3 H4 H5)
    as (self & lr & w1 & w2 & w3 & f3 & Hi & _ & Hc & Hr & Hf & _ & _ & Hty & _ & Hread).
  exists self, lr, w1, w2, w3, f3.
  split; [exact Hi |]. split; [exact Hc |]. split; [exact Hr |].
  split; [exact Hf |]. split; [exact Hty |].
  rewrite Hread. reflexivity.
Defined.

(** X15.  The entries of a dict override under keys of the lookup of the
    subclasses are dropped without notice: two overrides that differ only
    under such keys give the same filter. *)
Theorem subclass_keys_shadow_override (d d' subclasses : lookups) :
  (forall k, subclasses !! k = None -> d !! k = d' !! k) ->
  merged_limit_choices_to (LDict d) subclasses =
  merged_limit_choices_to (LDict d') subclasses.
Proof.
  intros Hsame. simpl. f_equal. apply map_eq. intros k.
  rewrite !dict_update_lookup.
  destruct (subclasses !! k) eqn:E; [reflexivity | now apply Hsame].
Qed.

Lemma subclass_keys_shadow_override_witness :
  merged_limit_choices_to (LDict {[ "pk__in" := VSet [9] ]})
    (subclasses_lookup Animal "pk")
  = merged_limit_choices_to (LDict ∅) (subclasses_lookup Animal "pk").
Proof.
  apply subclass_keys_shadow_override.
  intros k Hk.
  destruct (decide (k = "pk__in")) as [-> | Hne].
  - vm_compute in Hk. discriminate.
  - rewrite lookup_singleton_ne by congruence. now rewrite lookup_empty.
Defined.
